(** * The trading-term assistant: query resolver, knowledge store,
      session log and command dispatcher

    A shallow embedding of [my_ai_agent_logic.py] and of the command
    handling of [agent_ui.py], with the properties stated for them.

    Conventions of the embedding.
    - Python strings are [string]s of 8-bit characters; [str.lower],
      [str.title] and the tests on letters act on the ASCII letters, which
      is what Python does on ASCII text.  Text outside ASCII is outside the
      model.
    - Values loaded by [json.load] are [json] trees; a Python [dict] is an
      insertion-ordered association list ([PyDict]), because the program
      enumerates the keys of its knowledge base.
    - Statements that may raise are computations in a state-and-exception
      monad: the state is threaded through, mutations made before a raise
      persist, and [try ... except] is [try_except].
    - The collaborators the program only calls (the hosted chat session, the
      file system, the random generator, [str()] of a non-string value) are
      interfaces, given as type classes. *)

From Stdlib Require Import String Ascii List Bool Arith ZArith Lia.
Import ListNotations.
Local Open Scope list_scope.
Local Open Scope string_scope.

(** ** Python string operations *)

Module PyStr.

Definition is_upper (c : ascii) : bool :=
  let n := nat_of_ascii c in ((65 <=? n) && (n <=? 90))%nat.

Definition is_lower (c : ascii) : bool :=
  let n := nat_of_ascii c in ((97 <=? n) && (n <=? 122))%nat.

(** A cased character, for [str.title]: a letter. *)
Definition is_cased (c : ascii) : bool := is_upper c || is_lower c.

Definition lower_char (c : ascii) : ascii :=
  if is_upper c then ascii_of_nat (nat_of_ascii c + 32) else c.

Definition upper_char (c : ascii) : ascii :=
  if is_lower c then ascii_of_nat (nat_of_ascii c - 32) else c.

(** [s.lower()] *)
Fixpoint lower (s : string) : string :=
  match s with
  | EmptyString => EmptyString
  | String c r => String (lower_char c) (lower r)
  end.

(** [s.title()]: the first letter of every run of letters is upper-cased,
    the other letters of the run are lower-cased. *)
Fixpoint title_from (previous_is_cased : bool) (s : string) : string :=
  match s with
  | EmptyString => EmptyString
  | String c r =>
      String (if previous_is_cased then lower_char c else upper_char c)
             (title_from (is_cased c) r)
  end.

Definition title (s : string) : string := title_from false s.

(** [s.startswith(p)] *)
Definition startswith (s p : string) : bool := String.prefix p s.

(** The first occurrence of [sep] cuts [s] in two; [None] without one. *)
Fixpoint cut (sep : ascii) (s : string) : option (string * string) :=
  match s with
  | EmptyString => None
  | String c r =>
      if Ascii.eqb c sep then Some (EmptyString, r)
      else match cut sep r with
           | Some (a, b) => Some (String c a, b)
           | None => None
           end
  end.

(** [s.split(sep, maxsplit)] for a one-character separator: at most
    [maxsplit] cuts, from the left; empty pieces are kept. *)
Fixpoint split (sep : ascii) (maxsplit : nat) (s : string) : list string :=
  match maxsplit with
  | O => [s]
  | S n =>
      match cut sep s with
      | None => [s]
      | Some (a, b) => a :: split sep n b
      end
  end.

(** [sep.join(pieces)] *)
Definition join (sep : string) (pieces : list string) : string :=
  String.concat sep pieces.

(** [[x for ...]] rendered one per line: ["\n".join] uses the line feed. *)
Definition newline : string := String (ascii_of_nat 10) EmptyString.

(** ["-" * n] *)
Fixpoint repeat_string (s : string) (n : nat) : string :=
  match n with
  | O => EmptyString
  | S k => s ++ repeat_string s k
  end.

End PyStr.

Export PyStr.

(** ** Loaded values and dictionaries *)

(** A dictionary with string keys, in insertion order.  Assigning to a key
    that is present replaces its value in place; assigning to a new key
    appends it. *)
Module PyDict.

Definition t (V : Type) : Type := list (string * V).

Definition empty {V : Type} : t V := [].

(** [d[k]], when [k in d] *)
Fixpoint get {V : Type} (k : string) (d : t V) : option V :=
  match d with
  | [] => None
  | (k', v) :: r => if String.eqb k' k then Some v else get k r
  end.

(** [k in d] *)
Definition mem {V : Type} (k : string) (d : t V) : bool :=
  match get k d with Some _ => true | None => false end.

(** [d[k] = v] *)
Fixpoint set {V : Type} (k : string) (v : V) (d : t V) : t V :=
  match d with
  | [] => [(k, v)]
  | (k', v') :: r =>
      if String.eqb k' k then (k', v) :: r else (k', v') :: set k v r
  end.

(** [list(d.keys())] *)
Definition keys {V : Type} (d : t V) : list string := map fst d.

(** The truth value of [d]: a dictionary is true when it is not empty. *)
Definition truthy {V : Type} (d : t V) : bool :=
  match d with [] => false | _ :: _ => true end.

End PyDict.

(** What [json.load] returns. *)
#[local] Unset Elimination Schemes.
Inductive json : Type :=
| JNull
| JBool (b : bool)
| JNumber (n : Z)
| JString (s : string)
| JList (items : list json)
| JDict (fields : list (string * json)).
#[local] Set Elimination Schemes.

(** ** Exceptions and computations *)

(** The classes of [Exception] the program tells apart or raises itself;
    every class is a subclass of [Exception]. *)
Inductive ExnClass : Type :=
| ValueError | KeyError | IndexError | TypeError | AttributeError
| OSError | OtherException.

(** An exception: its class and what [str(e)] gives. *)
Record Exn : Type := { exn_class : ExnClass; exn_text : string }.

Definition is_ValueError (e : Exn) : bool :=
  match exn_class e with ValueError => true | _ => false end.

Inductive Outcome (A : Type) : Type :=
| Returned (a : A)
| Raised (e : Exn).

Arguments Returned {A} a.
Arguments Raised {A} e.

(** A statement run on a state [S]: it returns or raises, and leaves a
    state behind in both cases. *)
Definition M (S A : Type) : Type := S -> Outcome A * S.

Definition ret {S A : Type} (a : A) : M S A := fun s => (Returned a, s).

Definition bind {S A B : Type} (c : M S A) (k : A -> M S B) : M S B :=
  fun s =>
    match c s with
    | (Returned a, s') => k a s'
    | (Raised e, s') => (Raised e, s')
    end.

Definition raise {S A : Type} (e : Exn) : M S A := fun s => (Raised e, s).

(** [try: body  except Exception as e: handler(e)] *)
Definition try_except {S A : Type} (body : M S A) (handler : Exn -> M S A)
  : M S A :=
  fun s =>
    match body s with
    | (Returned a, s') => (Returned a, s')
    | (Raised e, s') => handler e s'
    end.

(** A value that is computed without touching the state, or the exception
    computing it raises. *)
Definition lift_outcome {S A : Type} (o : Outcome A) : M S A := fun s => (o, s).

Definition get_state {S : Type} : M S S := fun s => (Returned s, s).

Definition modify {S : Type} (f : S -> S) : M S unit :=
  fun s => (Returned tt, f s).

(** A statement on [S] run where a local variable of type [L] is alive. *)
Definition lift_local {L S A : Type} (c : M S A) : M (L * S) A :=
  fun ls => let (r, s') := c (snd ls) in (r, (fst ls, s')).

Definition get_local {L S : Type} : M (L * S) L :=
  fun ls => (Returned (fst ls), ls).

Definition modify_local {L S : Type} (f : L -> L) : M (L * S) unit :=
  fun ls => (Returned tt, (f (fst ls), snd ls)).

(** The body of a function whose local variable starts as [init]; the
    variable is gone when the function returns or raises. *)
Definition with_local {L S A : Type} (init : L) (body : M (L * S) A) : M S A :=
  fun s => let (r, ls) := body (init, s) in (r, snd ls).

(** A statement keeps a component of the state: it leaves it as it found
    it, whether it returns or raises. *)
Definition keeps {S A X : Type} (component : S -> X) (c : M S A) : Prop :=
  forall s, component (snd (c s)) = component s.

Declare Scope monad_scope.
Delimit Scope monad_scope with monad.
Notation "x <- c1 ;; c2" := (bind c1 (fun x => c2))
  (at level 61, c1 at next level, right associativity) : monad_scope.
Notation "c1 ;; c2" := (bind c1 (fun _ => c2))
  (at level 61, right associativity) : monad_scope.
Local Open Scope monad_scope.

(** Subscripting a loaded value: [v[i]] with a non-negative integer and
    [v[k]] with a string, with the exception Python raises otherwise. *)
Definition subscript_index (v : json) (i : nat) : Outcome json :=
  match v with
  | JList items =>
      match nth_error items i with
      | Some x => Returned x
      | None => Raised {| exn_class := IndexError;
                          exn_text := "list index out of range" |}
      end
  | JString s =>
      match String.get i s with
      | Some c => Returned (JString (String c EmptyString))
      | None => Raised {| exn_class := IndexError;
                          exn_text := "string index out of range" |}
      end
  | JDict _ =>
      (* the keys of a loaded object are strings: an integer is none of them *)
      Raised {| exn_class := KeyError; exn_text := "0" |}
  | JNull | JBool _ | JNumber _ =>
      Raised {| exn_class := TypeError;
                exn_text := "object is not subscriptable" |}
  end.

Definition subscript_key (v : json) (k : string) : Outcome json :=
  match v with
  | JDict fields =>
      match PyDict.get k fields with
      | Some x => Returned x
      | None => Raised {| exn_class := KeyError; exn_text := "'" ++ k ++ "'" |}
      end
  | JList _ =>
      Raised {| exn_class := TypeError;
                exn_text := "list indices must be integers or slices, not str" |}
  | JString _ =>
      Raised {| exn_class := TypeError;
                exn_text := "string indices must be integers, not 'str'" |}
  | JNull | JBool _ | JNumber _ =>
      Raised {| exn_class := TypeError;
                exn_text := "object is not subscriptable" |}
  end.

(** ** The collaborators *)

(** One part of a chat turn and one turn of a chat history, as the chat
    library hands them out: [turn.role], [turn.parts[0].text]. *)
Record Part : Type := { part_text : string }.
Record Content : Type := { role : string; parts : list Part }.

(** The reply of the hosted model.  Reading [response.text] gives the text
    or raises; [response.prompt_feedback] is [None] here when the attribute
    is absent or false, and else holds what [str()] gives for it. *)
Record Reply : Type := {
  response_text : Outcome string;
  prompt_feedback : option string
}.

(** The hosted chat session: [model.start_chat(history=...)], the readable
    [session.history] and [session.send_message(prompt)], which returns a
    reply or raises and leaves a session behind in both cases. *)
Class RemoteChat : Type := {
  Chat : Type;
  start_chat : json -> Chat;
  history : Chat -> list Content;
  send_message : string -> Chat -> Outcome Reply * Chat
}.

(** The file system under [open(name, "a")], [f.write(data)] and the close
    at the end of the [with] block; each may raise. *)
Class FileSystem : Type := {
  FS : Type;
  fs_open_append : string -> FS -> Outcome unit * FS;
  fs_write : string -> string -> FS -> Outcome unit * FS;
  fs_close : string -> FS -> Outcome unit * FS
}.

(** [random]: the value of draw number [n] below a bound. *)
Class RandomSource : Type := {
  randbelow : nat -> nat -> nat
}.

(** [str(v)] of a loaded value that is not a string, as f-strings use it. *)
Class Rendering : Type := {
  str_of_value : json -> string
}.

(** A message for the interface:
    [{"speaker_type": ..., "text": ...}]. *)
Record UIMessage : Type := { speaker_type : string; text : string }.

(** The double quote. *)
Definition dquote : string := String (ascii_of_nat 34) EmptyString.

Section Logic.

Context {remote : RemoteChat} {filesystem : FileSystem}
        {random : RandomSource} {rendering : Rendering}.

(** What the functions of [my_ai_agent_logic.py] act on: the chat session
    object they are handed, the files, the console that [print] writes to,
    and the number of random draws made so far. *)
Record World : Type := {
  chat : Chat;
  fs : FS;
  console : list string;
  random_draws : nat
}.

Definition set_chat (c : Chat) (w : World) : World :=
  {| chat := c; fs := fs w; console := console w;
     random_draws := random_draws w |}.

Definition set_fs (f : FS) (w : World) : World :=
  {| chat := chat w; fs := f; console := console w;
     random_draws := random_draws w |}.

Definition set_console (c : list string) (w : World) : World :=
  {| chat := chat w; fs := fs w; console := c;
     random_draws := random_draws w |}.

Definition set_random_draws (n : nat) (w : World) : World :=
  {| chat := chat w; fs := fs w; console := console w; random_draws := n |}.

(** An operation of the file system, run on the world. *)
Definition on_fs {A : Type} (op : FS -> Outcome A * FS) : M World A :=
  fun w => let (r, f') := op (fs w) in (r, set_fs f' w).

(** [print(line)] *)
Definition print (line : string) : M World unit :=
  modify (fun w => set_console (console w ++ [line])%list w).

(** [with open(name, "a", encoding="utf-8") as f: body]: the file is
    closed when the body returns and when it raises. *)
Definition with_open_append {A : Type} (name : string) (body : M World A)
  : M World A :=
  on_fs (fs_open_append name) ;;
  fun w =>
    match body w with
    | (Returned a, w') => (on_fs (fs_close name) ;; ret a) w'
    | (Raised e, w') => (on_fs (fs_close name) ;; raise e) w'
    end.

(** [current_chat_obj.send_message(prompt)] *)
Definition chat_send (prompt : string) : M World Reply :=
  fun w => let (r, c') := send_message prompt (chat w) in (r, set_chat c' w).

(** [random.choice(seq)] *)
Definition random_choice (seq : list string) : M World string :=
  match seq with
  | [] => raise {| exn_class := IndexError;
                   exn_text := "Cannot choose from an empty sequence" |}
  | _ :: _ =>
      fun w =>
        let i := randbelow (random_draws w) (length seq) mod length seq in
        (Returned (nth i seq EmptyString),
         set_random_draws (S (random_draws w)) w)
  end.

(** [f"{v}"] *)
Definition format_value (v : json) : string :=
  match v with
  | JString s => s
  | _ => str_of_value v
  end.

(** *** [my_ai_agent_logic.py] *)

(** [if speaker:] an absent and an empty speaker are both false. *)
Definition speaker_given (speaker : option string) : option string :=
  match speaker with
  | Some EmptyString => None
  | Some s => Some s
  | None => None
  end.

(** Lines 46 to 50: the block that [log_to_file] guards. *)
Definition write_log_entry (log_filename message : string)
    (speaker : option string) : M World unit :=
  with_open_append log_filename
    (match speaker_given speaker with
     | Some sp =>
         on_fs (fs_write log_filename (sp ++ ": " ++ message ++ newline))
     | None =>
         on_fs (fs_write log_filename (message ++ newline))
     end).

(** What [log_to_file] prints when the block raises. *)
Definition log_error_line (log_filename : string) (e_log : Exn) : string :=
  "Error writing to log file '" ++ log_filename ++ "': " ++ exn_text e_log.

Definition log_to_file (log_filename message : string)
    (speaker : option string) : M World unit :=
  try_except
    (write_log_entry log_filename message speaker)
    (fun e_log => print (log_error_line log_filename e_log)).

Definition separator_line : string := repeat_string "-" 30.

Definition get_help_for_ui (loaded_help_text_from_file log_filename : string)
  : M World string :=
  log_to_file log_filename "--- User typed /help ---" None ;;
  log_to_file log_filename "Displayed help message." (Some "System") ;;
  log_to_file log_filename separator_line None ;;
  ret loaded_help_text_from_file.

Definition get_my_terms_list_text (knowledge_base : PyDict.t json)
    (log_filename : string) : M World string :=
  log_to_file log_filename "--- User typed /my_terms ---" None ;;
  if PyDict.truthy knowledge_base then
    let terms_list_message :=
      "I have predefined definitions for these terms:" ++ newline
      ++ join newline
           (map (fun term => "- " ++ title term) (PyDict.keys knowledge_base))
    in
    log_to_file log_filename terms_list_message (Some "AI Agent") ;;
    log_to_file log_filename separator_line None ;;
    ret terms_list_message
  else
    let no_terms_message :=
      "My local knowledge base of terms is currently empty." in
    log_to_file log_filename no_terms_message (Some "AI Agent") ;;
    log_to_file log_filename separator_line None ;;
    ret no_terms_message.

(** The key looked up in the knowledge base (lines 91 to 95). *)
Definition term_to_explain (user_query_original user_query_lower : string)
  : string :=
  if startswith user_query_lower "what is "
     || startswith user_query_lower "explain "
  then
    let parts := split " " 2 user_query_original in
    if (1 <? length parts)%nat then lower (join " " (tl parts))
    else user_query_lower
  else user_query_lower.

(** [persona_initial_history[0]['parts'][0]['text']] *)
Definition elaboration_instruction_of (persona_initial_history : json)
  : Outcome json :=
  match subscript_index persona_initial_history 0 with
  | Raised e => Raised e
  | Returned turn =>
      match subscript_key turn "parts" with
      | Raised e => Raised e
      | Returned ps =>
          match subscript_index ps 0 with
          | Raised e => Raised e
          | Returned p => subscript_key p "text"
          end
      end
  end.

Definition local_def_message_of (display_term : string)
    (predefined_definition : json) : string :=
  "From my local knowledge: " ++ display_term ++ " is defined as - "
  ++ dquote ++ format_value predefined_definition ++ dquote ++ ".".

(** Lines 108 and 109. *)
Definition augmented_prompt (display_term : string)
    (predefined_definition elaboration_instruction : json) : string :=
  "The user asked about '" ++ display_term ++ "'. "
  ++ "My local knowledge says: '" ++ format_value predefined_definition
  ++ "'. " ++ format_value elaboration_instruction.

(** The shape of the persona that line 105 takes for granted: a list whose
    first turn is an object with a list under ["parts"], whose first part is
    an object with a ["text"]. *)
Definition persona_shape_ok (persona_initial_history : json) : bool :=
  match persona_initial_history with
  | JList (JDict turn :: _) =>
      match PyDict.get "parts" turn with
      | Some (JList (JDict part :: _)) => PyDict.mem "text" part
      | _ => false
      end
  | _ => false
  end.

Definition blocked_placeholder : string :=
  "[LLM Response blocked or contained no valid text content]".

(** Lines 119 to 127: the text of the reply, or a placeholder for it. *)
Definition ai_response_text_of (response : Reply) : string :=
  match response_text response with
  | Returned t => t
  | Raised e_text =>
      if is_ValueError e_text then
        match prompt_feedback response with
        | Some feedback =>
            blocked_placeholder ++ newline ++ "Prompt Feedback: " ++ feedback
        | None => blocked_placeholder
        end
      else "[Error accessing LLM response text: " ++ exn_text e_text ++ "]"
  end.

Definition append_message (m : UIMessage)
  : M (list UIMessage * World) unit :=
  modify_local (fun messages_for_ui => (messages_for_ui ++ [m])%list).

(** Lines 88 to 109: the local answer, when there is one, and the prompt
    for the model. *)
Definition prepare_prompt (user_query_original user_query_lower : string)
    (knowledge_base : PyDict.t json) (log_filename : string)
    (persona_initial_history : json) : M (list UIMessage * World) string :=
  let term_to_explain_lower :=
    term_to_explain user_query_original user_query_lower in
  match PyDict.get term_to_explain_lower knowledge_base with
  | Some predefined_definition =>
      let display_term := title term_to_explain_lower in
      let local_def_message :=
        local_def_message_of display_term predefined_definition in
      append_message
        {| speaker_type := "local"; text := local_def_message |} ;;
      lift_local
        (log_to_file log_filename local_def_message
           (Some "AI Agent (Local)")) ;;
      elaboration_instruction <-
        lift_outcome (elaboration_instruction_of persona_initial_history) ;;
      ret (augmented_prompt display_term predefined_definition
             elaboration_instruction)
  | None => ret user_query_original
  end.

Definition send_error_message (e_send : Exn) : UIMessage :=
  {| speaker_type := "system_error";
     text := "An error occurred sending message or generating content: "
             ++ exn_text e_send |}.

Definition retry_message : UIMessage :=
  {| speaker_type := "system_info";
     text := "Please check your input or try again." |}.

(** Lines 116 to 137: the guarded send. *)
Definition send_and_report (prompt_for_ai log_filename : string)
  : M (list UIMessage * World) unit :=
  try_except
    (response <- lift_local (chat_send prompt_for_ai) ;;
     let ai_response_text := ai_response_text_of response in
     append_message {| speaker_type := "llm"; text := ai_response_text |} ;;
     lift_local
       (log_to_file log_filename ai_response_text (Some "AI Agent (LLM)")) ;;
     lift_local (log_to_file log_filename separator_line None))
    (fun e_send =>
       let error_msg := text (send_error_message e_send) in
       append_message (send_error_message e_send) ;;
       lift_local (log_to_file log_filename error_msg (Some "System Error")) ;;
       lift_local (log_to_file log_filename separator_line None) ;;
       append_message retry_message).

Definition process_ai_query (user_query_original user_query_lower : string)
    (knowledge_base : PyDict.t json) (log_filename : string)
    (persona_initial_history : json) : M World (list UIMessage) :=
  with_local []
    (prompt_for_ai <-
       prepare_prompt user_query_original user_query_lower knowledge_base
         log_filename persona_initial_history ;;
     send_and_report prompt_for_ai log_filename ;;
     get_local).


End Logic.

(** ** [agent_ui.py] *)

(** Lines 178 to 183: the knowledge base built from the loaded terms.
    [item["term"].lower()] raises [AttributeError] when the term is not a
    string. *)
Definition is_term_record (item : json) : bool :=
  match item with
  | JDict fields =>
      PyDict.mem "term" fields && PyDict.mem "definition" fields
  | _ => false
  end.

Definition add_term_record (item : json) (kb : PyDict.t json)
  : Outcome (PyDict.t json) :=
  if is_term_record item then
    match item with
    | JDict fields =>
        match PyDict.get "term" fields, PyDict.get "definition" fields with
        | Some (JString term), Some definition =>
            Returned (PyDict.set (lower term) definition kb)
        | _, _ =>
            Raised {| exn_class := AttributeError;
                      exn_text := "object has no attribute 'lower'" |}
        end
    | _ => Returned kb
    end
  else Returned kb.

Fixpoint add_term_records (items : list json) (kb : PyDict.t json)
  : Outcome (PyDict.t json) :=
  match items with
  | [] => Returned kb
  | item :: rest =>
      match add_term_record item kb with
      | Returned kb' => add_term_records rest kb'
      | Raised e => Raised e
      end
  end.

Definition build_knowledge_base (loaded_terms : json)
  : Outcome (PyDict.t json) :=
  match loaded_terms with
  | JList items => add_term_records items PyDict.empty
  | _ => Returned PyDict.empty
  end.

(** A record with both fields and a string for a term: its key and value. *)
Definition term_entry (item : json) : option (string * json) :=
  match item with
  | JDict fields =>
      match PyDict.get "term" fields, PyDict.get "definition" fields with
      | Some (JString term), Some definition => Some (lower term, definition)
      | _, _ => None
      end
  | _ => None
  end.

(** A record that is skipped, or one that has a string for a term. *)
Definition term_is_string (item : json) : bool :=
  negb (is_term_record item)
  || match term_entry item with Some _ => true | None => false end.

(** What the specification expects under key [k]: the definition of the
    last record of the sequence that has both fields and whose lower-cased
    term is [k]. *)
Fixpoint expected_definition (k : string) (items : list json) : option json :=
  match items with
  | [] => None
  | item :: rest =>
      match expected_definition k rest with
      | Some d => Some d
      | None =>
          match term_entry item with
          | Some (key, d) =>
              if String.eqb key k then Some d else None
          | None => None
          end
      end
  end.

(** An entry of the displayed transcript:
    [{"role": ..., "content": ...}]. *)
Record DisplayMessage : Type := { msg_role : string; content : string }.

(** What a run puts on the page with [st.success], [st.warning] and
    [st.info]. *)
Inductive Notice : Type :=
| Success (s : string)
| Warning (s : string)
| Info (s : string).

(** The branches of the command dispatcher (lines 243 to 303). *)
Inductive Branch : Type :=
| QuitBranch | ResetBranch | HelpBranch | MyTermsBranch | RandomTermBranch
| QueryBranch.

Definition dispatch_branch (user_query_lc : string) : Branch :=
  if String.eqb user_query_lc "quit" || String.eqb user_query_lc "exit"
  then QuitBranch
  else if String.eqb user_query_lc "/reset" then ResetBranch
  else if String.eqb user_query_lc "/help" then HelpBranch
  else if String.eqb user_query_lc "/my_terms" then MyTermsBranch
  else if String.eqb user_query_lc "/random_term" then RandomTermBranch
  else QueryBranch.

(** [sub in s] *)
Definition contains (sub s : string) : bool :=
  match String.index 0 sub s with Some _ => true | None => false end.

(** The role a resolver message is displayed under (lines 289 to 295). *)
Definition display_role (msg_info : UIMessage) : string :=
  let s_type := lower (speaker_type msg_info) in
  if contains "local" s_type then "assistant"
  else if contains "llm" s_type then "assistant"
  else if contains "system_info" s_type then "assistant"
  else if contains "system_error" s_type then "assistant"
  else "assistant".

(** [history[-1]], when the history is not empty *)
Definition last_turn (h : list Content) : option Content :=
  match rev h with
  | [] => None
  | t :: _ => Some t
  end.

(** The greeting after a reset: the text of the trailing turn when its role
    is ["model"], and else the fixed message.  [parts[0]] raises
    [IndexError] on a turn without parts. *)
Definition greeting_after_reset (h : list Content) (fixed : string)
  : Outcome string :=
  match last_turn h with
  | Some t =>
      if String.eqb (role t) "model" then
        match parts t with
        | p :: _ => Returned (part_text p)
        | [] => Raised {| exn_class := IndexError;
                          exn_text := "list index out of range" |}
        end
      else Returned fixed
  | None => Returned fixed
  end.

(** The clock: what [datetime.datetime.now()] is rendered as. *)
Class Clock : Type := { now_text : string }.

Section UI.

Context {remote : RemoteChat} {filesystem : FileSystem}
        {random : RandomSource} {rendering : Rendering} {clock : Clock}.

(** The session state of the page ([st.session_state]) with the world it
    lives in.  [world] holds the object [st.session_state.chat_session]
    names; [log_file] is [None] while the entry is not set; [page] and
    [rerun_requested] are what the current run has shown and asked for. *)
Record App : Type := {
  agent_initialized : bool;
  initial_chat_history_template : json;
  help_text : string;
  help_text_content : string;
  knowledge_base : PyDict.t json;
  log_file : option string;
  display_messages : list DisplayMessage;
  world : World;
  page : list Notice;
  rerun_requested : bool
}.

Definition set_display_messages (d : list DisplayMessage) (a : App) : App :=
  {| agent_initialized := agent_initialized a;
     initial_chat_history_template := initial_chat_history_template a;
     help_text := help_text a;
     help_text_content := help_text_content a;
     knowledge_base := knowledge_base a;
     log_file := log_file a;
     display_messages := d;
     world := world a;
     page := page a;
     rerun_requested := rerun_requested a |}.

Definition set_world (w : World) (a : App) : App :=
  {| agent_initialized := agent_initialized a;
     initial_chat_history_template := initial_chat_history_template a;
     help_text := help_text a;
     help_text_content := help_text_content a;
     knowledge_base := knowledge_base a;
     log_file := log_file a;
     display_messages := display_messages a;
     world := w;
     page := page a;
     rerun_requested := rerun_requested a |}.

Definition set_page (p : list Notice) (a : App) : App :=
  {| agent_initialized := agent_initialized a;
     initial_chat_history_template := initial_chat_history_template a;
     help_text := help_text a;
     help_text_content := help_text_content a;
     knowledge_base := knowledge_base a;
     log_file := log_file a;
     display_messages := display_messages a;
     world := world a;
     page := p;
     rerun_requested := rerun_requested a |}.

Definition set_rerun_requested (b : bool) (a : App) : App :=
  {| agent_initialized := agent_initialized a;
     initial_chat_history_template := initial_chat_history_template a;
     help_text := help_text a;
     help_text_content := help_text_content a;
     knowledge_base := knowledge_base a;
     log_file := log_file a;
     display_messages := display_messages a;
     world := world a;
     page := page a;
     rerun_requested := b |}.

(** A function of the logic module, called from the page. *)
Definition on_world {A : Type} (c : M World A) : M App A :=
  fun a => let (r, w') := c (world a) in (r, set_world w' a).

(** [st.session_state.display_messages.append(...)] *)
Definition display (r c : string) : M App unit :=
  modify (fun a =>
    set_display_messages
      (display_messages a ++ [{| msg_role := r; content := c |}])%list a).

Definition notify (n : Notice) : M App unit :=
  modify (fun a => set_page (page a ++ [n])%list a).

(** [st.rerun()]: the run ends here and the script is run again. *)
Definition st_rerun : M App unit := modify (set_rerun_requested true).

(** [st.session_state.log_file]: [AttributeError] while it is not set. *)
Definition session_log_file : M App string :=
  fun a =>
    match log_file a with
    | Some f => (Returned f, a)
    | None => (Raised {| exn_class := AttributeError;
                         exn_text := "st.session_state has no attribute "
                                     ++ dquote ++ "log_file" ++ dquote |}, a)
    end.

(** [log_to_file(st.session_state.log_file, message, speaker)] *)
Definition log (message : string) (speaker : option string) : M App unit :=
  f <- session_log_file ;;
  on_world (log_to_file f message speaker).

(** [st.session_state.chat_session =
     st.session_state.model.start_chat(history=template)] *)
Definition restart_chat : M App unit :=
  modify (fun a =>
    set_world (set_chat (start_chat (initial_chat_history_template a))
                 (world a)) a).

(** The loop over the messages the resolver returned. *)
Fixpoint display_all (ai_messages_list : list UIMessage) : M App unit :=
  match ai_messages_list with
  | [] => ret tt
  | msg_info :: rest =>
      display (display_role msg_info) (text msg_info) ;; display_all rest
  end.

(** The resolver run on the entries of the session state. *)
Definition resolve (user_query_original user_query_lower : string)
  : M App (list UIMessage) :=
  a <- get_state ;;
  f <- session_log_file ;;
  on_world
    (process_ai_query user_query_original user_query_lower
       (knowledge_base a) f (initial_chat_history_template a)).

(** The sidebar button "New Chat / Reset" (lines 31 to 51). *)
Definition reset_button_sidebar : M App unit :=
  a <- get_state ;;
  if agent_initialized a then
    restart_chat ;;
    modify (set_display_messages []) ;;
    a' <- get_state ;;
    reset_msg_sidebar <-
      lift_outcome
        (greeting_after_reset (history (chat (world a')))
           "Conversation has been reset!") ;;
    display "assistant" reset_msg_sidebar ;;
    match log_file a' with
    | Some f =>
        on_world
          (log_to_file f
             "--- User clicked Reset Chat button from sidebar ---" None ;;
           log_to_file f reset_msg_sidebar (Some "AI Agent") ;;
           log_to_file f "---" None)
    | None => ret tt
    end ;;
    notify (Success "Chat reset successfully!") ;;
    st_rerun
  else notify (Warning "Agent not initialized yet. Cannot reset.").

(** The sidebar button "Explain Random Term" (lines 78 to 116).  The
    [else] of line 108 belongs to the [for] of line 98 and runs when the
    loop ends; the [else] of line 115 belongs to the [if] of line 81. *)
Definition random_term_button_sidebar : M App unit :=
  a <- get_state ;;
  if agent_initialized a then
    log "--- User clicked Explain Random Term button ---" None ;;
    if PyDict.truthy (knowledge_base a) then
      let available_terms := PyDict.keys (knowledge_base a) in
      random_term_key <- on_world (random_choice available_terms) ;;
      let selection_msg :=
        "Okay, let's talk about: '" ++ title random_term_key ++ "'" in
      display "assistant" selection_msg ;;
      log selection_msg (Some "AI Agent") ;;
      ai_messages_list <- resolve (title random_term_key) random_term_key ;;
      display_all ai_messages_list ;;
      (let no_terms_msg :=
         "My local knowledge base is empty, so I can't pick a random term." in
       display "assistant" no_terms_msg ;;
       log no_terms_msg (Some "AI Agent")) ;;
      log "---" None ;;
      st_rerun
    else notify (Warning "Agent not initialized yet.")
  else ret tt.

(** The branches of lines 243 to 318, each giving the value it leaves in
    [should_rerun_after_processing]. *)
Definition handle_branch (branch : Branch) (user_query user_query_lc : string)
  : M App bool :=
  match branch with
  | QuitBranch =>
      let goodbye := "Goodbye! Hope this was helpful." in
      display "assistant" goodbye ;;
      log goodbye (Some "AI Agent") ;;
      log "---" None ;;
      log ("Chat ended: " ++ now_text) (Some "System") ;;
      log (repeat_string "=" 40) None ;;
      notify (Info
        "Chat session ended. Refresh the page to start a new session.") ;;
      ret false
  | ResetBranch =>
      restart_chat ;;
      modify (set_display_messages []) ;;
      a <- get_state ;;
      reset_msg <-
        lift_outcome
          (greeting_after_reset (history (chat (world a)))
             "Conversation reset by user.") ;;
      display "assistant" reset_msg ;;
      log "--- User typed /reset ---" None ;;
      log reset_msg (Some "AI Agent") ;;
      log "---" None ;;
      ret true
  | HelpBranch =>
      a <- get_state ;;
      f <- session_log_file ;;
      help_text_returned <-
        on_world (get_help_for_ui (help_text_content a) f) ;;
      display "assistant" help_text_returned ;;
      ret true
  | MyTermsBranch =>
      a <- get_state ;;
      f <- session_log_file ;;
      terms_text_returned <-
        on_world (get_my_terms_list_text (knowledge_base a) f) ;;
      display "assistant" terms_text_returned ;;
      ret true
  | RandomTermBranch =>
      log "--- User typed /random_term ---" None ;;
      a <- get_state ;;
      (if PyDict.truthy (knowledge_base a) then
         let available_terms := PyDict.keys (knowledge_base a) in
         random_term_key <- on_world (random_choice available_terms) ;;
         let selection_msg :=
           "Okay, let's talk about: '" ++ title random_term_key ++ "'" in
         display "assistant" selection_msg ;;
         log selection_msg (Some "AI Agent") ;;
         ai_messages_list <-
           resolve (title random_term_key) random_term_key ;;
         display_all ai_messages_list
       else
         let no_terms_msg := "My local knowledge base is empty." in
         display "assistant" no_terms_msg ;;
         log no_terms_msg (Some "AI Agent")) ;;
      log "---" None ;;
      ret true
  | QueryBranch =>
      ai_messages_list <- resolve user_query user_query_lc ;;
      display_all ai_messages_list ;;
      ret true
  end.

(** The typed input (lines 236 to 321); the run reaches it only past the
    check of line 208. *)
Definition handle_user_query (user_query : string) : M App unit :=
  match user_query with
  | EmptyString => ret tt
  | _ =>
      display "user" user_query ;;
      log user_query (Some "User") ;;
      let user_query_lc := lower user_query in
      should_rerun_after_processing <-
        handle_branch (dispatch_branch user_query_lc)
          user_query user_query_lc ;;
      if should_rerun_after_processing : bool then st_rerun else ret tt
  end.

End UI.

(** ** A concrete environment

    Instances of the collaborators on which the functions above compute:
    a chat session that answers or fails as scripted, a file system that
    records what is written and refuses the empty file name (as [open]
    does), a random source that always draws 0. *)
Module Demo.

(** What the scripted session does on [send_message]. *)
Inductive Script : Type :=
| Answers (r : Reply)
| Fails (e : Exn).

Record Session : Type := { turns : list Content; script : Script }.

Definition text_of_part (p : json) : Part :=
  match p with
  | JDict fields =>
      match PyDict.get "text" fields with
      | Some (JString s) => {| part_text := s |}
      | _ => {| part_text := EmptyString |}
      end
  | _ => {| part_text := EmptyString |}
  end.

Definition content_of_turn (turn : json) : Content :=
  match turn with
  | JDict fields =>
      {| role := match PyDict.get "role" fields with
                 | Some (JString r) => r
                 | _ => EmptyString
                 end;
         parts := match PyDict.get "parts" fields with
                  | Some (JList ps) => map text_of_part ps
                  | _ => []
                  end |}
  | _ => {| role := EmptyString; parts := [] |}
  end.

Definition to_contents (template : json) : list Content :=
  match template with
  | JList items => map content_of_turn items
  | _ => []
  end.

Definition plain_reply (s : string) : Reply :=
  {| response_text := Returned s; prompt_feedback := None |}.

Definition reply_turn (r : Reply) : Content :=
  {| role := "model";
     parts := match response_text r with
              | Returned s => [{| part_text := s |}]
              | Raised _ => []
              end |}.

Definition user_turn (prompt : string) : Content :=
  {| role := "user"; parts := [{| part_text := prompt |}] |}.

Definition scripted_remote : RemoteChat :=
  {| Chat := Session;
     start_chat := fun template =>
       {| turns := to_contents template;
          script := Answers (plain_reply "Sure.") |};
     history := turns;
     send_message := fun prompt c =>
       match script c with
       | Answers r =>
           (Returned r,
            {| turns := (turns c ++ [user_turn prompt; reply_turn r])%list;
               script := script c |})
       | Fails e => (Raised e, c)
       end |}.

(** The files: what has been written, in order, as (name, data). *)
Definition recording_fs : FileSystem :=
  {| FS := list (string * string);
     fs_open_append := fun name f =>
       match name with
       | EmptyString =>
           (Raised {| exn_class := OSError;
                      exn_text := "[Errno 2] No such file or directory: ''" |},
            f)
       | _ => (Returned tt, f)
       end;
     fs_write := fun name data f => (Returned tt, (f ++ [(name, data)])%list);
     fs_close := fun _ f => (Returned tt, f) |}.

Definition first_choice : RandomSource := {| randbelow := fun _ _ => 0 |}.

Definition plain_rendering : Rendering :=
  {| str_of_value := fun v =>
       match v with
       | JNull => "None"
       | JBool true => "True"
       | JBool false => "False"
       | _ => "<value>"
       end |}.

Definition fixed_clock : Clock := {| now_text := "2025-01-01 12:00:00" |}.

Definition world_of (c : Session) : @World scripted_remote recording_fs :=
  {| chat := c : @Chat scripted_remote;
     fs := [] : @FS recording_fs;
     console := [];
     random_draws := 0 |}.

Definition answering (r : Reply) : Session :=
  {| turns := []; script := Answers r |}.


(** The persona the program falls back on (line 170). *)
Definition default_persona : json :=
  JList [ JDict [("role", JString "user");
                 ("parts", JList [JDict [("text", JString "Basic AI.")]])];
          JDict [("role", JString "model");
                 ("parts", JList [JDict [("text", JString "Hi.")]])] ].

Definition pip_definition : json := JString "Price Interest Point...".

Definition pip_kb : PyDict.t json := [("pip", pip_definition)].


(** The resolver on the concrete environment. *)
Definition run_query (q : string) (kb : PyDict.t json) (persona : json)
    (c : Session) :=
  @process_ai_query scripted_remote recording_fs plain_rendering
    q (lower q) kb "log.txt" persona (world_of c).

Definition app_of (initialized : bool) (kb : PyDict.t json) (c : Session)
    (shown : list DisplayMessage) : @App scripted_remote recording_fs :=
  {| agent_initialized := initialized;
     initial_chat_history_template := default_persona;
     help_text := "Help.";
     help_text_content := "Help.";
     knowledge_base := kb;
     log_file := Some "log.txt";
     display_messages := shown;
     world := world_of c;
     page := [];
     rerun_requested := false |}.



(** Loaded terms: two records for the same term in different casing, a
    value that is not a dictionary, and a record without a definition. *)
Definition sample_records : list json :=
  [ JDict [("term", JString "Pip"); ("definition", pip_definition)];
    JString "note";
    JDict [("term", JString "Spread")];
    JDict [("term", JString "PIP");
           ("definition", JString "Smallest price move.")] ].

(** A record with both fields whose term is a number. *)
Definition number_term_record : json :=
  JDict [("term", JNumber 5); ("definition", JString "five")].

(** A session in the middle of a conversation, and its transcript. *)
Definition busy_session : Session :=
  {| turns := [ user_turn "Basic AI.";
                reply_turn (plain_reply "Hi.");
                user_turn "What is a swap?";
                reply_turn (plain_reply "An overnight interest.") ];
     script := Answers (plain_reply "Sure.") |}.

Definition shown_before : list DisplayMessage :=
  [ {| msg_role := "assistant"; content := "Hi." |};
    {| msg_role := "user"; content := "What is a swap?" |};
    {| msg_role := "assistant"; content := "An overnight interest." |} ].

(** The handlers of the page on the concrete environment. *)
Definition click_random_term :=
  @random_term_button_sidebar scripted_remote recording_fs first_choice
    plain_rendering.

Definition click_reset := @reset_button_sidebar scripted_remote recording_fs.

Definition type_query :=
  @handle_user_query scripted_remote recording_fs first_choice
    plain_rendering fixed_clock.

Definition local_message (term : string) (definition : json) : UIMessage :=
  {| speaker_type := "local";
     text := @local_def_message_of plain_rendering term definition |}.

End Demo.

(** ** The console under [print] *)

(** [print] writes to a stream that may refuse a line: a closed stream, a
    character the stream cannot encode.  Given the line and what the
    console holds, [print_failure] is the exception that [print] raises,
    if it raises. *)
Class ConsoleFaults : Type := {
  print_failure : string -> list string -> option Exn
}.

Section Console.

Context {remote : RemoteChat} {filesystem : FileSystem}
        {faults : ConsoleFaults}.

(** [print(line)] on that console: the line is written, or the exception
    is raised and nothing is written. *)
Definition print_on_console (line : string) : M World unit :=
  fun w =>
    match print_failure line (console w) with
    | Some e => (Raised e, w)
    | None => print line w
    end.

(** [log_to_file] on that console (lines 41 to 52): the [print] of line 52
    runs in the handler, outside the guarded block. *)
Definition log_to_file_on_console (log_filename message : string)
    (speaker : option string) : M World unit :=
  try_except
    (write_log_entry log_filename message speaker)
    (fun e_log => print_on_console (log_error_line log_filename e_log)).

End Console.

(** ** Loading the configuration files *)

(** [s.upper()] *)
Fixpoint upper (s : string) : string :=
  match s with
  | EmptyString => EmptyString
  | String c r => String (upper_char c) (upper r)
  end.

(** What [open(filename, "r", encoding="utf-8")] does: the file is opened,
    or [FileNotFoundError] is raised, or another exception with the text
    [str(e)]. *)
Inductive OpenOutcome : Type :=
| Opened
| NotFound
| OpenFailed (detail : string).

(** What [f.read()] does: the text of the file, or an exception with the
    text [str(e)]. *)
Inductive ReadOutcome : Type :=
| ReadText (content : string)
| ReadFailed (detail : string).

(** What decoding the text of a file as JSON does: the value, or
    [json.JSONDecodeError], or another exception, each with [str(e)]. *)
Inductive DecodeOutcome : Type :=
| Decoded (v : json)
| Malformed (detail : string)
| DecodeFailed (detail : string).

(** The files that are read, and the JSON decoder. *)
Class TextFiles {filesystem : FileSystem} : Type := {
  fs_open_read : string -> FS -> OpenOutcome * FS;
  fs_read_all : string -> FS -> ReadOutcome * FS;
  json_decode : string -> DecodeOutcome
}.

(** The handlers of [load_data_from_file] tell three failures apart. *)
Inductive LoadFailure : Type :=
| FileNotFoundFailure
| JSONDecodeFailure (detail : string)
| OtherFailure (detail : string).

Section Loading.

Context {remote : RemoteChat} {filesystem : FileSystem}
        {textfiles : TextFiles}.

(** The world after [print(line)]. *)
Definition say (line : string) (w : World) : World :=
  set_console (console w ++ [line])%list w.

(** [f.read()] on the opened file; a Python [str] is a [JString]. *)
Definition read_text (filename : string) (w : World)
  : (LoadFailure + json) * World :=
  match fs_read_all filename (fs w) with
  | (ReadText content, f') => (inr (JString content), set_fs f' w)
  | (ReadFailed detail, f') => (inl (OtherFailure detail), set_fs f' w)
  end.

(** [json.load(f)] on the opened file. *)
Definition read_json (filename : string) (w : World)
  : (LoadFailure + json) * World :=
  match fs_read_all filename (fs w) with
  | (ReadText content, f') =>
      (match json_decode content with
       | Decoded v => inr v
       | Malformed detail => inl (JSONDecodeFailure detail)
       | DecodeFailed detail => inl (OtherFailure detail)
       end, set_fs f' w)
  | (ReadFailed detail, f') => (inl (OtherFailure detail), set_fs f' w)
  end.

(** Lines 18 to 25: the block that [load_data_from_file] guards. *)
Definition load_attempt (filename file_type : string) (w : World)
  : (LoadFailure + json) * World :=
  match fs_open_read filename (fs w) with
  | (NotFound, f') => (inl FileNotFoundFailure, set_fs f' w)
  | (OpenFailed detail, f') => (inl (OtherFailure detail), set_fs f' w)
  | (Opened, f') =>
      let w1 := set_fs f' w in
      if String.eqb (lower file_type) "json" then read_json filename w1
      else if String.eqb (lower file_type) "txt" then read_text filename w1
      else
        read_text filename
          (say ("Warning: Unsupported file_type '" ++ file_type ++ "' for '"
                ++ filename ++ "'. Reading as plain text.") w1)
  end.

(** What the handlers return: the empty list for JSON, the empty string
    for every other file type. *)
Definition default_for (file_type : string) : json :=
  if String.eqb (lower file_type) "json" then JList []
  else JString EmptyString.

Definition load_data_from_file (filename file_type : string)
  : M World json :=
  fun w =>
    let w0 :=
      say ("Attempting to load " ++ upper file_type ++ " data from '"
           ++ filename ++ "'...") w in
    match load_attempt filename file_type w0 with
    | (inr data, w1) =>
        (Returned data,
         say ("Successfully loaded data from '" ++ filename ++ "'.") w1)
    | (inl FileNotFoundFailure, w1) =>
        (Returned (default_for file_type),
         say ("ERROR: File '" ++ filename
              ++ "' not found. Returning default for " ++ upper file_type
              ++ ".") w1)
    | (inl (JSONDecodeFailure detail), w1) =>
        (Returned (JList []),
         say ("ERROR decoding JSON from '" ++ filename ++ "': " ++ detail
              ++ ". Returning default empty list.") w1)
    | (inl (OtherFailure detail), w1) =>
        (Returned (default_for file_type),
         say ("ERROR loading data from '" ++ filename ++ "' (type: "
              ++ file_type ++ "): " ++ detail ++ ".") w1)
    end.

End Loading.

(** ** The rest of the page *)

(** The truth value of a loaded value. *)
Definition json_truthy (v : json) : bool :=
  match v with
  | JNull => false
  | JBool b => b
  | JNumber n => negb (Z.eqb n 0)
  | JString s => match s with EmptyString => false | _ => true end
  | JList items => match items with [] => false | _ :: _ => true end
  | JDict fields => match fields with [] => false | _ :: _ => true end
  end.

(** The persona and the help text of lines 170 and 175. *)
Definition fallback_persona : json :=
  JList [ JDict [("role", JString "user");
                 ("parts", JList [JDict [("text", JString "Basic AI.")]])];
          JDict [("role", JString "model");
                 ("parts", JList [JDict [("text", JString "Hi.")]])] ].

Definition fallback_help : string :=
  "Default Help: Ask questions. Type /quit to exit.".

(** A loaded text as the string it is; [load_data_from_file] gives a string
    for every file type but JSON. *)
Definition loaded_text (v : json) : string :=
  match v with
  | JString s => s
  | _ => EmptyString
  end.

Section Page.

Context {remote : RemoteChat} {filesystem : FileSystem}
        {textfiles : TextFiles}.

Definition set_initial_chat_history_template (t : json) (a : App) : App :=
  {| agent_initialized := agent_initialized a;
     initial_chat_history_template := t;
     help_text := help_text a;
     help_text_content := help_text_content a;
     knowledge_base := knowledge_base a;
     log_file := log_file a;
     display_messages := display_messages a;
     world := world a;
     page := page a;
     rerun_requested := rerun_requested a |}.

Definition set_help_text_content (h : string) (a : App) : App :=
  {| agent_initialized := agent_initialized a;
     initial_chat_history_template := initial_chat_history_template a;
     help_text := help_text a;
     help_text_content := h;
     knowledge_base := knowledge_base a;
     log_file := log_file a;
     display_messages := display_messages a;
     world := world a;
     page := page a;
     rerun_requested := rerun_requested a |}.

Definition set_knowledge_base (kb : PyDict.t json) (a : App) : App :=
  {| agent_initialized := agent_initialized a;
     initial_chat_history_template := initial_chat_history_template a;
     help_text := help_text a;
     help_text_content := help_text_content a;
     knowledge_base := kb;
     log_file := log_file a;
     display_messages := display_messages a;
     world := world a;
     page := page a;
     rerun_requested := rerun_requested a |}.

(** Lines 163 to 185 of the initialisation: the persona, the help text and
    the terms are loaded, with the fallbacks for what did not load, the
    knowledge base is built and the chat session is started. *)
Definition load_session_data : M App unit :=
  let loc_persona_config_filename := "persona_config.json" in
  let loc_help_filename := "persona_help.txt" in
  let loc_my_terms_filename := "my_trading_terms.json" in
  template <-
    on_world (load_data_from_file loc_persona_config_filename "json") ;;
  (if json_truthy template
   then modify (set_initial_chat_history_template template)
   else
     notify (Warning ("Persona file '" ++ loc_persona_config_filename
                      ++ "' not loaded. Using minimal default.")) ;;
     modify (set_initial_chat_history_template fallback_persona)) ;;
  help <- on_world (load_data_from_file loc_help_filename "txt") ;;
  (if json_truthy help
   then modify (set_help_text_content (loaded_text help))
   else
     notify (Warning ("Help file '" ++ loc_help_filename
                      ++ "' not loaded. Using minimal default.")) ;;
     modify (set_help_text_content fallback_help)) ;;
  loaded_terms <-
    on_world (load_data_from_file loc_my_terms_filename "json") ;;
  kb <- lift_outcome (build_knowledge_base loaded_terms) ;;
  modify (set_knowledge_base kb) ;;
  restart_chat.

(** The sidebar button "Show Help" (lines 54 to 60). *)
Definition help_button_sidebar : M App unit :=
  a <- get_state ;;
  if agent_initialized a then
    f <- session_log_file ;;
    help <- on_world (get_help_for_ui (help_text a) f) ;;
    display "assistant" help ;;
    st_rerun
  else notify (Warning "Agent not initialized yet.").

(** The sidebar button "List My Terms" (lines 62 to 76). *)
Definition my_terms_button_sidebar : M App unit :=
  a <- get_state ;;
  if agent_initialized a then
    f <- session_log_file ;;
    terms_text_to_display <-
      on_world (get_my_terms_list_text (knowledge_base a) f) ;;
    display "assistant" terms_text_to_display ;;
    st_rerun
  else notify (Warning "Agent not initialized yet.").

End Page.

(** ** A concrete environment for loading

    Files held in memory, as (name, text), and a decoder that decodes the
    two JSON texts it is given here and rejects every other text, none of
    which is JSON. *)
Module Samples.

(** The JSON text of one term record:
    [[{"term": "Pip", "definition": "Price Interest Point..."}]]. *)
Definition pip_terms_text : string :=
  "[{" ++ dquote ++ "term" ++ dquote ++ ": " ++ dquote ++ "Pip" ++ dquote
  ++ ", " ++ dquote ++ "definition" ++ dquote ++ ": " ++ dquote
  ++ "Price Interest Point..." ++ dquote ++ "}]".

Definition stored_files : list (string * string) :=
  [ ("persona_help.txt", "Ask me about trading terms.");
    ("my_trading_terms.json", pip_terms_text);
    ("broken.json", "{oops");
    ("notes.md", "# Notes") ].

Definition memory_files : @TextFiles Demo.recording_fs :=
  {| fs_open_read := fun name (f : @FS Demo.recording_fs) =>
       match PyDict.get name stored_files with
       | Some _ => (Opened, f)
       | None => (NotFound, f)
       end;
     fs_read_all := fun name (f : @FS Demo.recording_fs) =>
       match PyDict.get name stored_files with
       | Some content => (ReadText content, f)
       | None => (ReadFailed "I/O operation on closed file.", f)
       end;
     json_decode := fun content =>
       if String.eqb content pip_terms_text then
         Decoded (JList [JDict [("term", JString "Pip");
                                ("definition", Demo.pip_definition)]])
       else if String.eqb content "[]" then Decoded (JList [])
       else Malformed "Expecting value: line 1 column 1 (char 0)" |}.

Definition idle_world : @World Demo.scripted_remote Demo.recording_fs :=
  Demo.world_of (Demo.answering (Demo.plain_reply "ok")).


(** Sessions of the page: one that has just started, one in the middle
    of a conversation, and one that is not initialised. *)
Definition fresh_app : @App Demo.scripted_remote Demo.recording_fs :=
  Demo.app_of true Demo.pip_kb (Demo.answering (Demo.plain_reply "ok")) [].

Definition busy_app : @App Demo.scripted_remote Demo.recording_fs :=
  Demo.app_of true Demo.pip_kb Demo.busy_session Demo.shown_before.

Definition cold_app : @App Demo.scripted_remote Demo.recording_fs :=
  Demo.app_of false Demo.pip_kb Demo.busy_session Demo.shown_before.

(** The resolver's answer to ["Pip"] on the session that has just
    started. *)
Definition pip_answer : list UIMessage :=
  [ Demo.local_message "Pip" Demo.pip_definition;
    {| speaker_type := "llm"; text := "ok" |} ].

Definition pip_query_run :=
  @process_ai_query Demo.scripted_remote Demo.recording_fs
    Demo.plain_rendering "Pip" (lower "Pip") (knowledge_base fresh_app)
    "log.txt" (initial_chat_history_template fresh_app)
    (snd (@log_to_file Demo.scripted_remote Demo.recording_fs
            "log.txt" "Pip" (Some "User") (world fresh_app))).

Definition load_session :=
  @load_session_data Demo.scripted_remote Demo.recording_fs memory_files.

(** Consoles: one that takes every line, one that is closed, and one that
    encodes ASCII only; and a file system that opens ASCII names only. *)
Definition open_console : ConsoleFaults :=
  {| print_failure := fun _ _ => None |}.

Definition closed_console : ConsoleFaults :=
  {| print_failure := fun _ _ =>
       Some {| exn_class := ValueError;
               exn_text := "I/O operation on closed file." |} |}.

Fixpoint all_ascii (s : string) : bool :=
  match s with
  | EmptyString => true
  | String c r => (nat_of_ascii c <? 128)%nat && all_ascii r
  end.

Definition encode_error : Exn :=
  {| exn_class := ValueError;
     exn_text := "'ascii' codec can't encode character" |}.

Definition ascii_console : ConsoleFaults :=
  {| print_failure := fun line _ =>
       if all_ascii line then None else Some encode_error |}.

Definition ascii_fs : FileSystem :=
  {| FS := list (string * string);
     fs_open_append := fun name f =>
       if all_ascii name then (Returned tt, f) else (Raised encode_error, f);
     fs_write := fun name data f => (Returned tt, (f ++ [(name, data)])%list);
     fs_close := fun _ f => (Returned tt, f) |}.

(** A file name with a character outside ASCII. *)
Definition accented_name : string := String (ascii_of_nat 233) "log.txt".

Definition ascii_world : @World Demo.scripted_remote ascii_fs :=
  {| chat := Demo.answering (Demo.plain_reply "ok") : @Chat Demo.scripted_remote;
     fs := [] : @FS ascii_fs;
     console := [];
     random_draws := 0 |}.

End Samples.

(** * Properties *)

(** ** Strings *)

Lemma lower_app (a b : string) : lower (a ++ b) = lower a ++ lower b.
Proof.
  induction a as [|c a IH]; simpl; [reflexivity|].
  now rewrite IH.
Qed.

Lemma lower_char_idempotent (c : ascii) :
  lower_char (lower_char c) = lower_char c.
Proof.
  destruct c as [[] [] [] [] [] [] [] []]; reflexivity.
Qed.

Lemma lower_idempotent (s : string) : lower (lower s) = lower s.
Proof.
  induction s as [|c s IH]; simpl; [reflexivity|].
  now rewrite lower_char_idempotent, IH.
Qed.

(** Only the space is lower-cased to the space. *)
Lemma lower_char_space (c : ascii) : lower_char c = " "%char -> c = " "%char.
Proof.
  destruct c as [[] [] [] [] [] [] [] []]; vm_compute; intros H;
    solve [reflexivity | discriminate H].
Qed.

Lemma lower_char_not_space (c : ascii) :
  Ascii.eqb (lower_char c) " " = Ascii.eqb c " ".
Proof.
  destruct c as [[] [] [] [] [] [] [] []]; reflexivity.
Qed.

Lemma startswith_app (p s : string) : startswith (p ++ s) p = true.
Proof.
  unfold startswith.
  induction p as [|c p IH]; simpl.
  - destruct s; reflexivity.
  - destruct (ascii_dec c c) as [_|N]; [exact IH | now elim N].
Qed.

Lemma cut_lower (sep : ascii) (s : string) :
  sep = " "%char ->
  cut sep (lower s) =
  match cut sep s with
  | Some (a, b) => Some (lower a, lower b)
  | None => None
  end.
Proof.
  intros ->.
  induction s as [|c s IH]; simpl; [reflexivity|].
  rewrite lower_char_not_space.
  destruct (Ascii.eqb c " "); [reflexivity|].
  rewrite IH. now destruct (cut " " s) as [[a b]|].
Qed.

Lemma cut_spec (sep : ascii) (s a b : string) :
  cut sep s = Some (a, b) -> s = a ++ String sep b.
Proof.
  revert a b.
  induction s as [|c s IH]; simpl; intros a b H; [discriminate|].
  destruct (Ascii.eqb c sep) eqn:E.
  - apply Ascii.eqb_eq in E. subst c. now inversion H.
  - destruct (cut sep s) as [[a' b']|]; [|discriminate].
    inversion H; subst. simpl. f_equal. now apply IH.
Qed.

Lemma split_nonempty (sep : ascii) (n : nat) (s : string) :
  split sep n s <> [].
Proof.
  destruct n; simpl; [discriminate|].
  destruct (cut sep s) as [[a b]|]; discriminate.
Qed.

(** Joining the pieces of a split with the separator gives the string
    back. *)
Lemma join_split (sep : ascii) (n : nat) (s : string) :
  join (String sep EmptyString) (split sep n s) = s.
Proof.
  revert s.
  induction n as [|n IH]; intros s; simpl; [reflexivity|].
  destruct (cut sep s) as [[a b]|] eqn:E; [|reflexivity].
  apply cut_spec in E. subst s.
  specialize (IH b). unfold join in *.
  simpl. destruct (split sep n b) as [|x xs] eqn:Es.
  - now elim (split_nonempty sep n b).
  - rewrite IH. reflexivity.
Qed.

(** The string operations on the inputs of the program. *)
Example lower_mixed_case : lower "What is Pip" = "what is pip".
Proof. reflexivity. Qed.

Example title_of_words : title "moving average" = "Moving Average".
Proof. reflexivity. Qed.

Example title_after_apostrophe : title "trader's edge" = "Trader'S Edge".
Proof. reflexivity. Qed.

Example split_three_words :
  split " " 2 "What is Pip" = ["What"; "is"; "Pip"].
Proof. reflexivity. Qed.

Example split_keeps_the_rest :
  split " " 2 "Explain moving average crossover"
  = ["Explain"; "moving"; "average crossover"].
Proof. reflexivity. Qed.

Example split_without_separator : split " " 2 "Pip" = ["Pip"].
Proof. reflexivity. Qed.

(** ** The key the resolver looks up *)

Lemma eqb_space_of_lower (c l : ascii) :
  lower_char c = l -> Ascii.eqb c " " = Ascii.eqb l " ".
Proof. intros <-. symmetry. apply lower_char_not_space. Qed.

(** Takes a string apart, character by character, along an equation
    [lower p = "literal"]. *)
Ltac split_by_lower H :=
  match type of H with
  | lower ?p = EmptyString =>
      destruct p; simpl in H; [clear H | discriminate H]
  | lower ?p = String _ _ =>
      let c := fresh "c" in
      let E := fresh "E" in
      destruct p as [|c p]; simpl in H;
      [ discriminate H | injection H as E H; split_by_lower H ]
  end.

(** A query that does not start with either phrase is its own key. *)
Lemma plain_query_key (q : string) :
  startswith (lower q) "what is " = false ->
  startswith (lower q) "explain " = false ->
  term_to_explain q (lower q) = lower q.
Proof.
  intros H1 H2. unfold term_to_explain. now rewrite H1, H2.
Qed.

(** ["Explain X"], in any casing of the phrase: the key is [X],
    lower-cased. *)
Lemma explain_query_key (phrase x : string) :
  lower phrase = "explain " ->
  term_to_explain (phrase ++ x) (lower (phrase ++ x)) = lower x.
Proof.
  intros H. unfold term_to_explain.
  rewrite lower_app, H.
  rewrite (startswith_app "explain " (lower x)), orb_true_r.
  split_by_lower H.
  apply lower_char_space in E6. subst.
  cbn [append split cut].
  rewrite (eqb_space_of_lower _ _ E), (eqb_space_of_lower _ _ E0),
    (eqb_space_of_lower _ _ E1), (eqb_space_of_lower _ _ E2),
    (eqb_space_of_lower _ _ E3), (eqb_space_of_lower _ _ E4),
    (eqb_space_of_lower _ _ E5).
  cbn [Ascii.eqb Bool.eqb].
  change (match cut " " x with
          | Some (a, b) => a :: [b]
          | None => [x]
          end) with (split " " 1 x).
  pose proof (split_nonempty " " 1 x) as Hne.
  pose proof (join_split " " 1 x) as Hj.
  destruct (split " " 1 x) as [|y ys]; [now elim Hne|].
  cbn [length tl Nat.ltb Nat.leb]. now rewrite Hj.
Qed.

(** ["What is X"], in any casing of the phrase: the key is ["is "]
    followed by [X], lower-cased; the word ["is"] stays in the key. *)
Lemma what_is_query_key (phrase x : string) :
  lower phrase = "what is " ->
  term_to_explain (phrase ++ x) (lower (phrase ++ x)) = "is " ++ lower x.
Proof.
  intros H. unfold term_to_explain.
  rewrite lower_app, H.
  rewrite (startswith_app "what is " (lower x)), orb_true_l.
  split_by_lower H.
  apply lower_char_space in E6. apply lower_char_space in E3. subst.
  cbn [append split cut].
  rewrite (eqb_space_of_lower _ _ E), (eqb_space_of_lower _ _ E0),
    (eqb_space_of_lower _ _ E1), (eqb_space_of_lower _ _ E2),
    (eqb_space_of_lower _ _ E4), (eqb_space_of_lower _ _ E5).
  cbn [Ascii.eqb Bool.eqb split cut].
  rewrite (eqb_space_of_lower _ _ E4), (eqb_space_of_lower _ _ E5).
  cbn [Ascii.eqb Bool.eqb length tl Nat.ltb Nat.leb].
  unfold join. simpl. now rewrite E4, E5.
Qed.

(** ** Computations *)

Lemma keeps_ret {S A X : Type} (component : S -> X) (a : A) :
  keeps component (ret a).
Proof. intros s. reflexivity. Qed.

Lemma keeps_raise {S A X : Type} (component : S -> X) (e : Exn) :
  keeps component (@raise S A e).
Proof. intros s. reflexivity. Qed.

Lemma keeps_bind {S A B X : Type} (component : S -> X)
    (c : M S A) (k : A -> M S B) :
  keeps component c -> (forall a, keeps component (k a)) ->
  keeps component (bind c k).
Proof.
  intros Hc Hk s. unfold bind.
  specialize (Hc s). destruct (c s) as [[a|e] s1]; simpl in *.
  - now rewrite Hk.
  - exact Hc.
Qed.

Lemma keeps_try_except {S A X : Type} (component : S -> X)
    (body : M S A) (handler : Exn -> M S A) :
  keeps component body -> (forall e, keeps component (handler e)) ->
  keeps component (try_except body handler).
Proof.
  intros Hb Hh s. unfold try_except.
  specialize (Hb s). destruct (body s) as [[a|e] s1]; simpl in *.
  - exact Hb.
  - now rewrite Hh.
Qed.

Lemma keeps_modify {S X : Type} (component : S -> X) (f : S -> S) :
  (forall s, component (f s) = component s) -> keeps component (modify f).
Proof. intros H s. apply H. Qed.

(** ** The session log *)

Section LogFacts.

Context {remote : RemoteChat} {filesystem : FileSystem}.

Lemma on_fs_keeps_chat {A : Type} (op : FS -> Outcome A * FS) :
  keeps chat (on_fs op).
Proof. intros w. unfold on_fs. now destruct (op (fs w)). Qed.

Lemma on_fs_keeps_console {A : Type} (op : FS -> Outcome A * FS) :
  keeps console (on_fs op).
Proof. intros w. unfold on_fs. now destruct (op (fs w)). Qed.

Lemma on_fs_keeps_draws {A : Type} (op : FS -> Outcome A * FS) :
  keeps random_draws (on_fs op).
Proof. intros w. unfold on_fs. now destruct (op (fs w)). Qed.

Lemma with_open_append_keeps {A X : Type} (component : World -> X)
    (name : string) (body : M World A) :
  (forall B (op : FS -> Outcome B * FS), keeps component (on_fs op)) ->
  keeps component body ->
  keeps component (with_open_append name body).
Proof.
  intros Hfs Hbody. unfold with_open_append.
  apply keeps_bind; [apply Hfs|]. intros _ w.
  specialize (Hbody w). destruct (body w) as [[a|e] w1]; simpl in *.
  - rewrite <- Hbody. apply keeps_bind; [apply Hfs|]. intros; apply keeps_ret.
  - rewrite <- Hbody. apply keeps_bind; [apply Hfs|]. intros; apply keeps_raise.
Qed.

Lemma write_log_entry_keeps {X : Type} (component : World -> X)
    (log_filename message : string) (speaker : option string) :
  (forall B (op : FS -> Outcome B * FS), keeps component (on_fs op)) ->
  keeps component (write_log_entry log_filename message speaker).
Proof.
  intros Hfs. unfold write_log_entry.
  apply with_open_append_keeps; [exact Hfs|].
  destruct (speaker_given speaker); apply Hfs.
Qed.

Lemma print_keeps_chat (line : string) : keeps chat (print line).
Proof. intros w. reflexivity. Qed.

Lemma print_keeps_draws (line : string) : keeps random_draws (print line).
Proof. intros w. reflexivity. Qed.

Lemma log_to_file_keeps_chat (log_filename message : string)
    (speaker : option string) :
  keeps chat (log_to_file log_filename message speaker).
Proof.
  apply keeps_try_except.
  - apply write_log_entry_keeps. intros; apply on_fs_keeps_chat.
  - intros; apply print_keeps_chat.
Qed.

Lemma log_to_file_keeps_draws (log_filename message : string)
    (speaker : option string) :
  keeps random_draws (log_to_file log_filename message speaker).
Proof.
  apply keeps_try_except.
  - apply write_log_entry_keeps. intros; apply on_fs_keeps_draws.
  - intros; apply print_keeps_draws.
Qed.

(** [log_to_file] returns, whatever the file system does. *)
Lemma log_to_file_returns (log_filename message : string)
    (speaker : option string) (w : World) :
  log_to_file log_filename message speaker w =
  (Returned tt, snd (log_to_file log_filename message speaker w)).
Proof.
  unfold log_to_file, try_except.
  destruct (write_log_entry log_filename message speaker w) as [[[]|e] w1];
    reflexivity.
Qed.

End LogFacts.

Section ConsoleFacts.

Context {remote : RemoteChat} {filesystem : FileSystem}
        {faults : ConsoleFaults}.

(** C8, as the code has it.  For every file name, message and speaker, and
    whatever the file system does, no exception raised while the log file
    is opened, written or closed leaves [log_to_file]: it is caught and
    handed to one [print] that names the file and the exception.  When the
    console takes that line the call returns; when [print] raises, its
    exception is the one the caller sees, and no other exception ever
    leaves the call.  On a console that takes every line the call always
    returns. *)
Theorem log_to_file_contains_file_errors
    (log_filename message : string) (speaker : option string) (w : World) :
  (forall w1,
     write_log_entry log_filename message speaker w = (Returned tt, w1) ->
     log_to_file_on_console log_filename message speaker w = (Returned tt, w1))
  /\ (forall e w1,
        write_log_entry log_filename message speaker w = (Raised e, w1) ->
        log_to_file_on_console log_filename message speaker w =
        match print_failure (log_error_line log_filename e) (console w) with
        | None =>
            (Returned tt,
             set_console
               (console w ++ [log_error_line log_filename e])%list w1)
        | Some e' => (Raised e', w1)
        end)
  /\ (forall e' w',
        log_to_file_on_console log_filename message speaker w = (Raised e', w') ->
        exists e,
          fst (write_log_entry log_filename message speaker w) = Raised e
          /\ print_failure (log_error_line log_filename e) (console w)
             = Some e')
  /\ ((forall line held, print_failure line held = None) ->
      log_to_file_on_console log_filename message speaker w =
        log_to_file log_filename message speaker w
      /\ exists w',
           log_to_file_on_console log_filename message speaker w =
           (Returned tt, w')).
Proof.
  pose proof (write_log_entry_keeps console log_filename message speaker
                (fun B op => on_fs_keeps_console op) w) as Hc.
  unfold log_to_file_on_console, log_to_file, try_except, print_on_console.
  destruct (write_log_entry log_filename message speaker w) as [[[]|e] w1];
    cbn [snd] in Hc.
  - split; [intros w2 H; exact H|].
    split; [intros e w2 H; discriminate H|].
    split; [intros e' w' H; discriminate H|].
    intros _. split; [reflexivity | eexists; reflexivity].
  - rewrite Hc.
    split; [intros w2 H; discriminate H|].
    split.
    { intros e0 w2 H. injection H as <- <-.
      destruct (print_failure (log_error_line log_filename e) (console w));
        [reflexivity|].
      unfold print, modify. now rewrite Hc. }
    split.
    { intros e' w' H. exists e. split; [reflexivity|].
      destruct (print_failure (log_error_line log_filename e) (console w));
        [now injection H as <- _ | discriminate H]. }
    intros Hopen. rewrite Hopen. split; [reflexivity | eexists; reflexivity].
Qed.

End ConsoleFacts.


(** ** The query resolver *)

Section ResolverFacts.

Context {remote : RemoteChat} {filesystem : FileSystem}
        {rendering : Rendering}.

Lemma lift_local_log (log_filename message : string)
    (speaker : option string) (l : list UIMessage) (w : World) :
  lift_local (log_to_file log_filename message speaker) (l, w) =
  (Returned tt, (l, snd (log_to_file log_filename message speaker w))).
Proof.
  unfold lift_local. cbn [fst snd].
  now rewrite log_to_file_returns.
Qed.

(** The world after the two log lines that close a turn. *)
Lemma two_logs_keep_chat (f m1 m2 : string) (s1 s2 : option string)
    (w : World) :
  chat (snd (log_to_file f m2 s2 (snd (log_to_file f m1 s1 w)))) = chat w.
Proof. now rewrite !log_to_file_keeps_chat. Qed.

(** The guarded send, when the session answers. *)
Lemma send_and_report_answer (prompt log_filename : string)
    (msgs : list UIMessage) (w : World) (r : Reply) (c' : Chat) :
  send_message prompt (chat w) = (Returned r, c') ->
  exists w',
    send_and_report prompt log_filename (msgs, w) =
    (Returned tt,
     ((msgs ++ [{| speaker_type := "llm";
                   text := ai_response_text_of r |}])%list, w'))
    /\ chat w' = c'.
Proof.
  intros Hsend.
  unfold send_and_report, try_except, bind at 1.
  unfold lift_local at 1, chat_send. cbn [fst snd]. rewrite Hsend.
  unfold bind at 1, append_message, modify_local. cbn [fst snd].
  unfold bind at 1. rewrite lift_local_log.
  rewrite lift_local_log.
  eexists. split; [reflexivity|].
  now rewrite two_logs_keep_chat.
Qed.

(** The guarded send, when sending raises. *)
Lemma send_and_report_failure (prompt log_filename : string)
    (msgs : list UIMessage) (w : World) (e : Exn) (c' : Chat) :
  send_message prompt (chat w) = (Raised e, c') ->
  exists w',
    send_and_report prompt log_filename (msgs, w) =
    (Returned tt,
     ((msgs ++ [send_error_message e; retry_message])%list, w'))
    /\ chat w' = c'.
Proof.
  intros Hsend.
  unfold send_and_report, try_except, bind at 1.
  unfold lift_local at 1, chat_send. cbn [fst snd]. rewrite Hsend.
  unfold bind at 1, append_message at 1, modify_local. cbn [fst snd].
  unfold bind at 1. rewrite lift_local_log.
  unfold bind at 1. rewrite lift_local_log.
  unfold append_message, modify_local. cbn [fst snd].
  rewrite <- app_assoc. cbn [app].
  eexists. split; [reflexivity|].
  now rewrite two_logs_keep_chat.
Qed.

(** The guarded send returns, whatever the session does. *)
Lemma send_and_report_returns (prompt log_filename : string)
    (msgs : list UIMessage) (w : World) :
  exists tail w',
    send_and_report prompt log_filename (msgs, w) =
    (Returned tt, ((msgs ++ tail)%list, w'))
    /\ ((exists r, tail = [{| speaker_type := "llm";
                              text := ai_response_text_of r |}])
        \/ (exists e, tail = [send_error_message e; retry_message])).
Proof.
  destruct (send_message prompt (chat w)) as [[r|e] c'] eqn:Hsend.
  - destruct (send_and_report_answer prompt log_filename msgs w r c' Hsend)
      as (w' & H & _).
    exists [{| speaker_type := "llm"; text := ai_response_text_of r |}], w'.
    split; [exact H | left; now exists r].
  - destruct (send_and_report_failure prompt log_filename msgs w e c' Hsend)
      as (w' & H & _).
    exists [send_error_message e; retry_message], w'.
    split; [exact H | right; now exists e].
Qed.

(** The three ways the first part of the resolver ends. *)
Lemma prepare_prompt_miss (q qlc : string) (kb : PyDict.t json)
    (log_filename : string) (persona : json) (w : World) :
  PyDict.get (term_to_explain q qlc) kb = None ->
  prepare_prompt q qlc kb log_filename persona ([], w) =
  (Returned q, ([], w)).
Proof. intros H. unfold prepare_prompt. now rewrite H. Qed.

Lemma prepare_prompt_hit (q qlc : string) (kb : PyDict.t json)
    (log_filename : string) (persona : json) (w : World) (d : json) :
  PyDict.get (term_to_explain q qlc) kb = Some d ->
  let display_term := title (term_to_explain q qlc) in
  let local_message :=
    {| speaker_type := "local";
       text := local_def_message_of display_term d |} in
  exists w1,
    chat w1 = chat w
    /\ prepare_prompt q qlc kb log_filename persona ([], w) =
       match elaboration_instruction_of persona with
       | Returned instruction =>
           (Returned (augmented_prompt display_term d instruction),
            ([local_message], w1))
       | Raised e => (Raised e, ([local_message], w1))
       end.
Proof.
  intros H display_term local_message.
  exists (snd (log_to_file log_filename
                 (local_def_message_of display_term d)
                 (Some "AI Agent (Local)") w)).
  split; [apply log_to_file_keeps_chat|].
  unfold prepare_prompt. rewrite H.
  unfold bind at 1, append_message, modify_local. cbn [fst snd app].
  unfold bind at 1. fold display_term. rewrite lift_local_log.
  unfold bind, lift_outcome, ret.
  now destruct (elaboration_instruction_of persona).
Qed.

(** The access of line 105 returns exactly on the personas of the expected
    shape. *)
Lemma elaboration_instruction_shape (persona : json) :
  persona_shape_ok persona = true <->
  exists instruction,
    elaboration_instruction_of persona = Returned instruction.
Proof.
  unfold persona_shape_ok, elaboration_instruction_of.
  destruct persona as [| | | s |items|fields]; cbn;
    try (split; [discriminate | intros [i Hi]; discriminate Hi]).
  - (* a string: its first character is a string, which has no key *)
    destruct (String.get 0 s); cbn;
      split; try discriminate; intros [i Hi]; discriminate Hi.
  - destruct items as [|turn rest]; cbn;
      [split; [discriminate | intros [i Hi]; discriminate Hi]|].
    destruct turn as [| | | s |l|turn]; cbn;
      try (split; [discriminate | intros [i Hi]; discriminate Hi]).
    destruct (PyDict.get "parts" turn) as [ps|]; cbn;
      [|split; [discriminate | intros [i Hi]; discriminate Hi]].
    destruct ps as [| | | s |ps|fields]; cbn;
      try (split; [discriminate | intros [i Hi]; discriminate Hi]).
    + destruct (String.get 0 s); cbn;
        split; try discriminate; intros [i Hi]; discriminate Hi.
    + destruct ps as [|part ps]; cbn;
        [split; [discriminate | intros [i Hi]; discriminate Hi]|].
      destruct part as [| | | s |l|part]; cbn;
        try (split; [discriminate | intros [i Hi]; discriminate Hi]).
      unfold PyDict.mem.
      destruct (PyDict.get "text" part) as [t|];
        split; try discriminate; eauto; intros [i Hi]; discriminate Hi.
Qed.

Lemma process_ai_query_unfold (q qlc : string) (kb : PyDict.t json)
    (log_filename : string) (persona : json) (w : World) :
  process_ai_query q qlc kb log_filename persona w =
  match prepare_prompt q qlc kb log_filename persona ([], w) with
  | (Returned prompt, lw) =>
      match send_and_report prompt log_filename lw with
      | (Returned _, lw') => (Returned (fst lw'), snd lw')
      | (Raised e, lw') => (Raised e, snd lw')
      end
  | (Raised e, lw) => (Raised e, snd lw)
  end.
Proof.
  unfold process_ai_query, with_local, bind.
  destruct (prepare_prompt q qlc kb log_filename persona ([], w))
    as [[prompt|e] lw]; [|reflexivity].
  destruct (send_and_report prompt log_filename lw) as [[[]|e] lw'];
    reflexivity.
Qed.



(** ["Explain X"], in any casing of the phrase, on a term [X] of the
    knowledge base: the call is the call on the bare query [X]. *)
Lemma explain_query_resolves_as_bare (phrase x : string)
    (kb : PyDict.t json) (log_filename : string) (persona : json)
    (w : World) (d : json) :
  lower phrase = "explain " ->
  startswith (lower x) "what is " = false ->
  startswith (lower x) "explain " = false ->
  PyDict.get (lower x) kb = Some d ->
  process_ai_query (phrase ++ x) (lower (phrase ++ x)) kb log_filename
    persona w =
  process_ai_query x (lower x) kb log_filename persona w.
Proof.
  intros Hphrase H1 H2 Hget.
  unfold process_ai_query, prepare_prompt.
  rewrite (explain_query_key phrase x Hphrase).
  rewrite (plain_query_key x H1 H2).
  now rewrite Hget.
Qed.



(** C9. On a call whose key is in the knowledge base, the persona is
    indexed before the guarded send.  When the persona is a list whose
    first turn is an object with a list under ["parts"] whose first part is
    an object with a ["text"], the call returns messages; when it is not,
    the call raises the exception of the failed access, returns no message
    (neither the local answer nor the error and advice of the guarded
    send), and the session is left untouched. *)
Theorem persona_shape_precondition (q qlc : string) (kb : PyDict.t json)
    (log_filename : string) (persona : json) (w : World) (d : json) :
  PyDict.get (term_to_explain q qlc) kb = Some d ->
  (persona_shape_ok persona = true ->
   exists msgs w',
     process_ai_query q qlc kb log_filename persona w = (Returned msgs, w'))
  /\ (persona_shape_ok persona = false ->
      exists e w',
        process_ai_query q qlc kb log_filename persona w = (Raised e, w')
        /\ elaboration_instruction_of persona = Raised e
        /\ chat w' = chat w).
Proof.
  intros Hget.
  destruct (prepare_prompt_hit q qlc kb log_filename persona w d Hget)
    as (w1 & Hchat & Hp).
  rewrite process_ai_query_unfold, Hp.
  split; intros Hshape.
  - apply elaboration_instruction_shape in Hshape.
    destruct Hshape as [instruction ->].
    match goal with
    | |- context [send_and_report ?p ?f ?lw] =>
        destruct (send_and_report_returns p f (fst lw) (snd lw))
          as (tail & w2 & Hs & _)
    end.
    cbn [fst snd] in Hs. rewrite Hs. cbn [fst snd]. eauto.
  - destruct (elaboration_instruction_of persona) as [i|e] eqn:He.
    + assert (persona_shape_ok persona = true) as Habs
        by (apply elaboration_instruction_shape; eauto).
      rewrite Habs in Hshape. discriminate Hshape.
    + exists e, w1. cbn [snd]. auto.
Qed.


End ResolverFacts.

(** ** The knowledge store *)

Lemma get_set_same {V : Type} (k : string) (v : V) (d : PyDict.t V) :
  PyDict.get k (PyDict.set k v d) = Some v.
Proof.
  induction d as [|[k' v'] d IH]; simpl.
  - now rewrite String.eqb_refl.
  - destruct (String.eqb k' k) eqn:E; simpl; rewrite E; [reflexivity|exact IH].
Qed.

Lemma get_set_other {V : Type} (k k0 : string) (v : V) (d : PyDict.t V) :
  String.eqb k k0 = false ->
  PyDict.get k0 (PyDict.set k v d) = PyDict.get k0 d.
Proof.
  intros Hne.
  induction d as [|[k' v'] d IH]; simpl.
  - now rewrite Hne.
  - destruct (String.eqb k' k) eqn:E; simpl.
    + apply String.eqb_eq in E. subst k'. now rewrite Hne.
    + now rewrite IH.
Qed.

Lemma term_entry_is_record (item : json) (k : string) (d : json) :
  term_entry item = Some (k, d) -> is_term_record item = true.
Proof.
  destruct item as [| | | | |fields]; try discriminate.
  unfold term_entry, is_term_record, PyDict.mem.
  destruct (PyDict.get "term" fields) as [[| | |t| |]|]; try discriminate.
  now destruct (PyDict.get "definition" fields).
Qed.

(** One record, when its term is a string if it has both fields. *)
Lemma add_term_record_spec (item : json) (kb : PyDict.t json) :
  term_is_string item = true ->
  add_term_record item kb =
  Returned match term_entry item with
           | Some (k, d) => PyDict.set k d kb
           | None => kb
           end.
Proof.
  unfold term_is_string, add_term_record.
  destruct (is_term_record item) eqn:Hrec; cbn [negb orb].
  - destruct item as [| | | | |fields]; try discriminate Hrec.
    cbn [term_entry].
    destruct (PyDict.get "term" fields) as [[| | |t| |]|]; try discriminate.
    destruct (PyDict.get "definition" fields); [reflexivity|discriminate].
  - intros _. destruct (term_entry item) as [[k d]|] eqn:He; [|reflexivity].
    apply term_entry_is_record in He. rewrite He in Hrec. discriminate.
Qed.

Lemma add_term_records_spec (items : list json) (kb : PyDict.t json) :
  Forall (fun item => term_is_string item = true) items ->
  exists kb',
    add_term_records items kb = Returned kb'
    /\ forall k,
         PyDict.get k kb' =
         match expected_definition k items with
         | Some d => Some d
         | None => PyDict.get k kb
         end.
Proof.
  intros Hall. revert kb.
  induction Hall as [|item items Hitem _ IH]; intros kb.
  - exists kb. split; reflexivity.
  - cbn [add_term_records]. rewrite (add_term_record_spec item kb Hitem).
    destruct (IH match term_entry item with
                 | Some (k, d) => PyDict.set k d kb
                 | None => kb
                 end) as (kb' & Hrun & Hget).
    exists kb'. split; [exact Hrun|].
    intros k. rewrite Hget. cbn [expected_definition].
    destruct (expected_definition k items); [reflexivity|].
    destruct (term_entry item) as [[key d]|]; [|reflexivity].
    destruct (String.eqb key k) eqn:E.
    + apply String.eqb_eq in E. subst. apply get_set_same.
    + now apply get_set_other.
Qed.

(** What is expected under a key comes from a record of the sequence, and
    every record with a string term has something under its key. *)
Lemma expected_definition_source (k : string) (items : list json) (d : json) :
  expected_definition k items = Some d ->
  exists item, In item items /\ term_entry item = Some (k, d).
Proof.
  induction items as [|item items IH]; cbn [expected_definition];
    [discriminate|].
  destruct (expected_definition k items) as [d'|].
  - intros H. injection H as ->. destruct IH as (i & Hin & He);
      [reflexivity|]. exists i. split; [now right | exact He].
  - destruct (term_entry item) as [[key d']|] eqn:He; [|discriminate].
    destruct (String.eqb key k) eqn:E; [|discriminate].
    apply String.eqb_eq in E. subst. intros H. injection H as ->.
    exists item. split; [now left | exact He].
Qed.

Lemma expected_definition_covers (k : string) (items : list json)
    (item : json) (d : json) :
  In item items -> term_entry item = Some (k, d) ->
  exists d', expected_definition k items = Some d'.
Proof.
  induction items as [|i items IH]; [intros []|].
  intros [->|Hin] He; cbn [expected_definition].
  - destruct (expected_definition k items); [eauto|].
    rewrite He, String.eqb_refl. eauto.
  - destruct (IH Hin He) as [d' ->]. eauto.
Qed.

(** C3, as the code has it.  For every sequence of loaded records in which
    each dictionary that has both a ["term"] and a ["definition"] field
    has a string for a term, construction returns a knowledge base; what
    it holds under a key is the definition of the last record that has
    both fields and whose lower-cased term is that key, so that the
    records without both fields, and the values that are not
    dictionaries, contribute nothing; looking up the lower-cased term of
    an included record finds a definition.  Loaded terms that are not a
    list give the empty knowledge base. *)
Theorem knowledge_base_construction (items : list json) :
  Forall (fun item => term_is_string item = true) items ->
  exists kb,
    build_knowledge_base (JList items) = Returned kb
    /\ (forall k, PyDict.get k kb = expected_definition k items)
    /\ (forall k d, PyDict.get k kb = Some d ->
          exists item, In item items /\ is_term_record item = true
                       /\ term_entry item = Some (k, d))
    /\ (forall item fields term definition,
          In item items -> item = JDict fields ->
          PyDict.get "term" fields = Some (JString term) ->
          PyDict.get "definition" fields = Some definition ->
          exists d, PyDict.get (lower term) kb = Some d)
    /\ (forall item, In item items -> is_term_record item = false ->
          term_entry item = None).
Proof.
  intros Hall.
  destruct (add_term_records_spec items PyDict.empty Hall)
    as (kb & Hrun & Hget).
  assert (forall k, PyDict.get k kb = expected_definition k items) as Hexp.
  { intros k. rewrite Hget. now destruct (expected_definition k items). }
  exists kb. split; [exact Hrun|]. split; [exact Hexp|]. split; [|split].
  - intros k d H. rewrite Hexp in H.
    destruct (expected_definition_source k items d H) as (item & Hin & He).
    exists item. repeat split; try assumption.
    now apply term_entry_is_record in He.
  - intros item fields term definition Hin -> Ht Hd.
    rewrite Hexp.
    apply (expected_definition_covers _ _ (JDict fields) definition Hin).
    cbn [term_entry]. now rewrite Ht, Hd.
  - intros item _ Hrec.
    destruct (term_entry item) as [[k d]|] eqn:He; [|reflexivity].
    apply term_entry_is_record in He. rewrite He in Hrec. discriminate.
Qed.

(** ** The command dispatcher *)

Lemma bind_returned {S A B : Type} (c : M S A) (k : A -> M S B)
    (s s' : S) (a : A) :
  c s = (Returned a, s') -> bind c k s = k a s'.
Proof. intros H. unfold bind. now rewrite H. Qed.

Lemma bind_raised {S A B : Type} (c : M S A) (k : A -> M S B)
    (s s' : S) (e : Exn) :
  c s = (Raised e, s') -> bind c k s = (Raised e, s').
Proof. intros H. unfold bind. now rewrite H. Qed.

Lemma greeting_of_trailing_model_turn (h : list Content) (fixed : string)
    (t : Content) (p : Part) (ps : list Part) :
  last_turn h = Some t -> role t = "model" -> parts t = p :: ps ->
  greeting_after_reset h fixed = Returned (part_text p).
Proof.
  intros Hl Hr Hp. unfold greeting_after_reset. now rewrite Hl, Hr, Hp.
Qed.

Lemma dispatch_reset (q : string) :
  lower q = "/reset" -> dispatch_branch (lower q) = ResetBranch.
Proof. now intros ->. Qed.

Section UIFacts.

Context {remote : RemoteChat} {filesystem : FileSystem}
        {random : RandomSource} {rendering : Rendering} {clock : Clock}.

Lemma log_run (m : string) (sp : option string) (a : App) (f : string) :
  log_file a = Some f ->
  log m sp a =
  (Returned tt, set_world (snd (log_to_file f m sp (world a))) a).
Proof.
  intros H. unfold log, bind, session_log_file. rewrite H.
  unfold on_world. now rewrite log_to_file_returns.
Qed.

(** A typed input that is not empty is echoed and logged before it is
    dispatched. *)
Lemma handle_user_query_unfold (q f : string) (a : App) :
  q <> EmptyString -> log_file a = Some f ->
  handle_user_query q a =
  (should_rerun <- handle_branch (dispatch_branch (lower q)) q (lower q) ;;
   if should_rerun : bool then st_rerun else ret tt)
    (set_world (snd (log_to_file f q (Some "User") (world a)))
       (set_display_messages
          (display_messages a ++ [{| msg_role := "user"; content := q |}])%list
          a)).
Proof.
  intros Hq Hf. unfold handle_user_query.
  destruct q as [|c q]; [now elim Hq|].
  unfold bind at 1, display, modify.
  unfold bind at 1. rewrite (log_run _ _ _ f) by exact Hf.
  reflexivity.
Qed.


Lemma typed_reset (q f g : string) (a : App) :
  lower q = "/reset" -> log_file a = Some f ->
  greeting_after_reset
    (history (start_chat (initial_chat_history_template a)))
    "Conversation reset by user." = Returned g ->
  exists a',
    handle_user_query q a = (Returned tt, a')
    /\ chat (world a') = start_chat (initial_chat_history_template a)
    /\ display_messages a' = [{| msg_role := "assistant"; content := g |}].
Proof.
  intros Hq Hf Hg.
  assert (q <> EmptyString) as Hne by (intros ->; discriminate Hq).
  rewrite (handle_user_query_unfold q f a Hne Hf).
  rewrite Hq. cbn [dispatch_branch String.eqb Ascii.eqb Bool.eqb orb].
  unfold handle_branch.
  unfold bind at 1.
  unfold bind at 1, restart_chat, modify at 1.
  unfold bind at 1, modify at 1.
  unfold bind at 1, get_state.
  unfold bind at 1, lift_outcome.
  cbn [world set_world set_display_messages chat set_chat
       initial_chat_history_template].
  rewrite Hg.
  unfold bind at 1, display, modify.
  do 3 (unfold bind at 1; rewrite (log_run _ _ _ f) by exact Hf).
  unfold ret, st_rerun, modify.
  eexists. split; [reflexivity|].
  cbn [world set_world set_display_messages set_rerun_requested
       display_messages app].
  rewrite !log_to_file_keeps_chat. cbn [chat set_chat].
  split; reflexivity.
Qed.

Lemma on_world_run {A : Type} (c : M World A) (a : App) :
  on_world c a = (fst (c (world a)), set_world (snd (c (world a))) a).
Proof. unfold on_world. now destruct (c (world a)). Qed.

Lemma three_logs (f m1 m2 m3 : string) (s1 s2 s3 : option string)
    (w : World) :
  (log_to_file f m1 s1 ;; log_to_file f m2 s2 ;; log_to_file f m3 s3) w =
  (Returned tt,
   snd (log_to_file f m3 s3
          (snd (log_to_file f m2 s2 (snd (log_to_file f m1 s1 w)))))).
Proof.
  unfold bind.
  rewrite (log_to_file_returns f m1 s1 w).
  rewrite (log_to_file_returns f m2 s2).
  now rewrite (log_to_file_returns f m3 s3).
Qed.

Lemma sidebar_reset (g : string) (a : App) :
  agent_initialized a = true ->
  greeting_after_reset
    (history (start_chat (initial_chat_history_template a)))
    "Conversation has been reset!" = Returned g ->
  exists a',
    reset_button_sidebar a = (Returned tt, a')
    /\ chat (world a') = start_chat (initial_chat_history_template a)
    /\ display_messages a' = [{| msg_role := "assistant"; content := g |}].
Proof.
  intros Hinit Hg. unfold reset_button_sidebar.
  unfold bind at 1, get_state. rewrite Hinit.
  unfold bind at 1, restart_chat, modify at 1.
  unfold bind at 1, modify at 1.
  unfold bind at 1.
  unfold bind at 1, lift_outcome.
  cbn [world set_world set_display_messages chat set_chat
       initial_chat_history_template log_file].
  rewrite Hg.
  unfold bind at 1, display, modify.
  unfold bind at 1.
  destruct (log_file a) as [f|].
  - unfold on_world. rewrite three_logs.
    unfold bind, notify, st_rerun, modify.
    eexists. split; [reflexivity|].
    cbn [world set_world set_display_messages set_rerun_requested set_page
         display_messages app].
    rewrite !log_to_file_keeps_chat. cbn [chat set_chat].
    split; reflexivity.
  - unfold ret at 1.
    unfold bind, notify, st_rerun, modify.
    eexists. split; [reflexivity|].
    cbn [world set_world set_display_messages set_rerun_requested set_page
         display_messages app chat set_chat].
    split; reflexivity.
Qed.


(** The sidebar button on an empty knowledge base: the page shows the
    warning of line 116; nothing is drawn, nothing is added to the
    transcript. *)
Lemma sidebar_random_term_empty (a : App) (f : string) :
  agent_initialized a = true -> log_file a = Some f ->
  knowledge_base a = [] ->
  exists a',
    random_term_button_sidebar a = (Returned tt, a')
    /\ display_messages a' = display_messages a
    /\ page a' = (page a ++ [Warning "Agent not initialized yet."])%list
    /\ random_draws (world a') = random_draws (world a)
    /\ rerun_requested a' = rerun_requested a.
Proof.
  intros Hinit Hf Hkb. unfold random_term_button_sidebar.
  unfold bind at 1, get_state. rewrite Hinit, Hkb.
  unfold bind at 1. rewrite (log_run _ _ _ f) by exact Hf.
  cbn [PyDict.truthy]. unfold notify, modify.
  eexists. split; [reflexivity|].
  cbn [world set_world set_page display_messages page rerun_requested].
  now rewrite log_to_file_keeps_draws.
Qed.

(** The typed command on an empty knowledge base: the fixed message is
    shown and nothing is drawn. *)
Lemma typed_random_term_empty (q f : string) (a : App) :
  lower q = "/random_term" -> log_file a = Some f ->
  knowledge_base a = [] ->
  exists a',
    handle_user_query q a = (Returned tt, a')
    /\ display_messages a' =
       (display_messages a
        ++ [ {| msg_role := "user"; content := q |};
             {| msg_role := "assistant";
                content := "My local knowledge base is empty." |} ])%list
    /\ random_draws (world a') = random_draws (world a).
Proof.
  intros Hq Hf Hkb.
  assert (q <> EmptyString) as Hne by (intros ->; discriminate Hq).
  rewrite (handle_user_query_unfold q f a Hne Hf).
  rewrite Hq. cbn [dispatch_branch String.eqb Ascii.eqb Bool.eqb orb].
  unfold handle_branch.
  unfold bind at 1.
  unfold bind at 1. rewrite (log_run _ _ _ f) by exact Hf.
  unfold bind at 1, get_state.
  cbn [knowledge_base set_world set_display_messages]. rewrite Hkb.
  cbn [PyDict.truthy].
  unfold bind at 1.
  unfold bind at 1, display, modify.
  rewrite (log_run _ _ _ f) by exact Hf.
  unfold bind at 1. rewrite (log_run _ _ _ f) by exact Hf.
  unfold ret, st_rerun, modify.
  eexists. split; [reflexivity|].
  cbn [world set_world set_display_messages set_rerun_requested
       display_messages].
  rewrite !log_to_file_keeps_draws, <- app_assoc.
  split; reflexivity.
Qed.

Lemma get_help_for_ui_returns (h f : string) (w : World) :
  fst (get_help_for_ui h f w) = Returned h.
Proof.
  unfold get_help_for_ui, bind.
  rewrite (log_to_file_returns f "--- User typed /help ---" None w).
  rewrite (log_to_file_returns f "Displayed help message." (Some "System")).
  now rewrite (log_to_file_returns f separator_line None).
Qed.

(** The help command, in any casing: the loaded help text is shown. *)
Lemma typed_help (q f : string) (a : App) :
  lower q = "/help" -> log_file a = Some f ->
  exists a',
    handle_user_query q a = (Returned tt, a')
    /\ display_messages a' =
       (display_messages a
        ++ [ {| msg_role := "user"; content := q |};
             {| msg_role := "assistant";
                content := help_text_content a |} ])%list.
Proof.
  intros Hq Hf.
  assert (q <> EmptyString) as Hne by (intros ->; discriminate Hq).
  rewrite (handle_user_query_unfold q f a Hne Hf).
  rewrite Hq. cbn [dispatch_branch String.eqb Ascii.eqb Bool.eqb orb].
  unfold handle_branch.
  unfold bind at 1.
  unfold bind at 1, get_state.
  unfold bind at 1, session_log_file.
  cbn [log_file set_world set_display_messages help_text_content].
  rewrite Hf.
  unfold bind at 1. rewrite on_world_run, get_help_for_ui_returns.
  unfold bind at 1, display, modify.
  unfold ret, st_rerun, modify.
  eexists. split; [reflexivity|].
  cbn [world set_world set_display_messages set_rerun_requested
       display_messages].
  now rewrite <- app_assoc.
Qed.


(** After a reset the session is the fresh one, also when the greeting
    cannot be read. *)
Lemma typed_reset_chat (q f : string) (a : App) :
  lower q = "/reset" -> log_file a = Some f ->
  chat (world (snd (handle_user_query q a))) =
  start_chat (initial_chat_history_template a).
Proof.
  intros Hq Hf.
  destruct (greeting_after_reset
              (history (start_chat (initial_chat_history_template a)))
              "Conversation reset by user.") as [g|e] eqn:Hg.
  - destruct (typed_reset q f g a Hq Hf Hg) as (a' & -> & Hc & _).
    exact Hc.
  - assert (q <> EmptyString) as Hne by (intros ->; discriminate Hq).
    rewrite (handle_user_query_unfold q f a Hne Hf).
    rewrite Hq. cbn [dispatch_branch String.eqb Ascii.eqb Bool.eqb orb].
    unfold handle_branch.
    unfold bind at 1.
    unfold bind at 1, restart_chat, modify at 1.
    unfold bind at 1, modify at 1.
    unfold bind at 1, get_state.
    unfold bind at 1, lift_outcome.
    cbn [world set_world set_display_messages chat set_chat
         initial_chat_history_template].
    rewrite Hg. reflexivity.
Qed.

Lemma sidebar_reset_chat (a : App) :
  agent_initialized a = true ->
  chat (world (snd (reset_button_sidebar a))) =
  start_chat (initial_chat_history_template a).
Proof.
  intros Hinit.
  destruct (greeting_after_reset
              (history (start_chat (initial_chat_history_template a)))
              "Conversation has been reset!") as [g|e] eqn:Hg.
  - destruct (sidebar_reset g a Hinit Hg) as (a' & -> & Hc & _).
    exact Hc.
  - unfold reset_button_sidebar.
    unfold bind at 1, get_state. rewrite Hinit.
    unfold bind at 1, restart_chat, modify at 1.
    unfold bind at 1, modify at 1.
    unfold bind at 1.
    unfold bind at 1, lift_outcome.
    cbn [world set_world set_display_messages chat set_chat
         initial_chat_history_template log_file].
    rewrite Hg. reflexivity.
Qed.

(** C4. After the typed command [/reset], in any casing, and after the
    reset button of the sidebar on an initialised session, the history of
    the conversation is the history of a fresh session started from the
    persona template, whatever the session held before; the transcript
    holds one entry only, the greeting; and the greeting is the text of the
    trailing turn of that history when its role is ["model"]. *)
Theorem reset_restores_persona (a : App) (q f : string) :
  agent_initialized a = true -> log_file a = Some f ->
  lower q = "/reset" ->
  let fresh := start_chat (initial_chat_history_template a) in
  let typed := handle_user_query q a in
  let clicked := reset_button_sidebar a in
  history (chat (world (snd typed))) = history fresh
  /\ history (chat (world (snd clicked))) = history fresh
  /\ (forall g,
        greeting_after_reset (history fresh) "Conversation reset by user."
          = Returned g ->
        fst typed = Returned tt
        /\ display_messages (snd typed) =
           [{| msg_role := "assistant"; content := g |}])
  /\ (forall g,
        greeting_after_reset (history fresh) "Conversation has been reset!"
          = Returned g ->
        fst clicked = Returned tt
        /\ display_messages (snd clicked) =
           [{| msg_role := "assistant"; content := g |}])
  /\ (forall fixed t p ps,
        last_turn (history fresh) = Some t -> role t = "model" ->
        parts t = p :: ps ->
        greeting_after_reset (history fresh) fixed = Returned (part_text p)).
Proof.
  intros Hinit Hf Hq fresh typed clicked. subst fresh typed clicked.
  split; [now rewrite (typed_reset_chat q f a Hq Hf)|].
  split; [now rewrite (sidebar_reset_chat a Hinit)|].
  split; [|split].
  - intros g Hg.
    destruct (typed_reset q f g a Hq Hf Hg) as (a' & -> & _ & Hd).
    split; [reflexivity | exact Hd].
  - intros g Hg.
    destruct (sidebar_reset g a Hinit Hg) as (a' & -> & _ & Hd).
    split; [reflexivity | exact Hd].
  - intros fixed t p ps. apply greeting_of_trailing_model_turn.
Qed.


End UIFacts.

(** ** The properties on concrete inputs *)

(** C1. With the knowledge base holding ["pip"], the query ["What is Pip"]
    is looked up under the key ["is pip"], which is not in the knowledge
    base: the resolver returns the reply of the model alone, where the
    queries ["Pip"] and ["Explain Pip"] return the local definition before
    it. *)
Theorem what_is_query_misses_entry :
  let session := Demo.answering (Demo.plain_reply "A pip is a price step.") in
  let answer :=
    {| speaker_type := "llm"; text := "A pip is a price step." |} in
  let run q := fst (Demo.run_query q Demo.pip_kb Demo.default_persona session) in
  term_to_explain "What is Pip" (lower "What is Pip") = "is pip"
  /\ PyDict.get "is pip" Demo.pip_kb = None
  /\ run "What is Pip" = Returned [answer]
  /\ run "Pip" =
     Returned [Demo.local_message "Pip" Demo.pip_definition; answer]
  /\ run "Explain Pip" =
     Returned [Demo.local_message "Pip" Demo.pip_definition; answer].
Proof. vm_compute. repeat split. Qed.

(** C5. On an initialised session with an empty knowledge base, the
    sidebar button "Explain Random Term" draws nothing, adds nothing to
    the transcript, and shows the warning ["Agent not initialized yet."];
    the typed command [/random_term] shows the fixed message. *)
Theorem sidebar_random_term_on_empty_kb :
  let a :=
    Demo.app_of true PyDict.empty (Demo.answering (Demo.plain_reply "ok")) []
  in
  let clicked := Demo.click_random_term a in
  let typed := Demo.type_query "/random_term" a in
  fst clicked = Returned tt
  /\ random_draws (world (snd clicked)) = 0
  /\ display_messages (snd clicked) = []
  /\ page (snd clicked) = [Warning "Agent not initialized yet."]
  /\ rerun_requested (snd clicked) = false
  /\ fst typed = Returned tt
  /\ random_draws (world (snd typed)) = 0
  /\ display_messages (snd typed) =
     [ {| msg_role := "user"; content := "/random_term" |};
       {| msg_role := "assistant";
          content := "My local knowledge base is empty." |} ].
Proof. vm_compute. repeat split. Qed.

(** C3, the claim as it was stated fails: a record that is a dictionary
    with both fields, but whose term is a number, is neither stored nor
    skipped; construction raises and there is no knowledge base. *)
Lemma number_term_stops_construction :
  is_term_record Demo.number_term_record = true
  /\ build_knowledge_base (JList [Demo.number_term_record]) =
     Raised {| exn_class := AttributeError;
               exn_text := "object has no attribute 'lower'" |}
  /\ ~ (exists kb,
          build_knowledge_base (JList [Demo.number_term_record]) =
          Returned kb).
Proof.
  split; [reflexivity|]. split; [reflexivity|].
  intros [kb H]. discriminate H.
Qed.


(** ** The theorems at concrete inputs *)

(** C8, the claim as it was stated fails: with the console closed, or
    with a console that cannot encode the file name, the [print] of the
    handler raises and [log_to_file] lets that exception out to its
    caller. *)
Lemma print_failure_leaves_log_to_file :
  @log_to_file_on_console Demo.scripted_remote Demo.recording_fs
    Samples.closed_console EmptyString "hello" (Some "User")
    Samples.idle_world =
  (Raised {| exn_class := ValueError;
             exn_text := "I/O operation on closed file." |},
   Samples.idle_world)
  /\ @log_to_file_on_console Demo.scripted_remote Samples.ascii_fs
       Samples.ascii_console Samples.accented_name "hello" (Some "User")
       Samples.ascii_world =
     (Raised Samples.encode_error, Samples.ascii_world).
Proof. split; reflexivity. Qed.

(** The session log refuses the empty file name: on a console that takes
    the line, the exception of [open] ends on the console and the call
    returns. *)
Lemma log_to_file_contains_file_errors_witness :
  @log_to_file_on_console Demo.scripted_remote Demo.recording_fs
    Samples.open_console EmptyString "hello" (Some "User")
    Samples.idle_world =
  (Returned tt,
   set_console
     ["Error writing to log file '': [Errno 2] No such file or directory: ''"]
     Samples.idle_world).
Proof.
  apply (proj1 (proj2
           (@log_to_file_contains_file_errors Demo.scripted_remote
              Demo.recording_fs Samples.open_console
              EmptyString "hello" (Some "User") Samples.idle_world))
           {| exn_class := OSError;
              exn_text := "[Errno 2] No such file or directory: ''" |}
           Samples.idle_world).
  reflexivity.
Defined.



Lemma persona_shape_precondition_witness :
  let session := Demo.answering (Demo.plain_reply "ok") in
  (exists msgs w',
     Demo.run_query "Pip" Demo.pip_kb Demo.default_persona session =
     (Returned msgs, w'))
  /\ (exists e w',
        Demo.run_query "Pip" Demo.pip_kb (JList []) session = (Raised e, w')
        /\ exn_class e = IndexError
        /\ history (chat w') = []).
Proof.
  intros session. split.
  - apply (proj1 (@persona_shape_precondition Demo.scripted_remote
                    Demo.recording_fs Demo.plain_rendering "Pip" "pip"
                    Demo.pip_kb "log.txt" Demo.default_persona
                    (Demo.world_of session) Demo.pip_definition eq_refl)).
    reflexivity.
  - destruct (proj2 (@persona_shape_precondition Demo.scripted_remote
                       Demo.recording_fs Demo.plain_rendering "Pip" "pip"
                       Demo.pip_kb "log.txt" (JList [])
                       (Demo.world_of session) Demo.pip_definition eq_refl)
                eq_refl)
      as (e & w' & Hrun & He & Hchat).
    exists e, w'. split; [exact Hrun|]. split.
    + injection He as <-. reflexivity.
    + rewrite Hchat. reflexivity.
Defined.


Lemma knowledge_base_construction_witness :
  exists kb,
    build_knowledge_base (JList Demo.sample_records) = Returned kb
    /\ PyDict.get "pip" kb = Some (JString "Smallest price move.")
    /\ PyDict.get "spread" kb = None
    /\ PyDict.keys kb = ["pip"].
Proof.
  destruct (knowledge_base_construction Demo.sample_records)
    as (kb & Hrun & Hget & _).
  - repeat constructor.
  - exists kb. split; [exact Hrun|].
    split; [rewrite Hget; reflexivity|].
    split; [rewrite Hget; reflexivity|].
    vm_compute in Hrun. injection Hrun as <-. reflexivity.
Defined.

Lemma reset_restores_persona_witness :
  let a := Demo.app_of true Demo.pip_kb Demo.busy_session Demo.shown_before in
  let greeting := [{| msg_role := "assistant"; content := "Hi." |}] in
  history (chat (world (snd (Demo.type_query "/Reset" a)))) =
    Demo.to_contents Demo.default_persona
  /\ history (chat (world (snd (Demo.click_reset a)))) =
     Demo.to_contents Demo.default_persona
  /\ display_messages (snd (Demo.type_query "/Reset" a)) = greeting
  /\ display_messages (snd (Demo.click_reset a)) = greeting.
Proof.
  intros a greeting.
  destruct (@reset_restores_persona Demo.scripted_remote Demo.recording_fs
              Demo.first_choice Demo.plain_rendering Demo.fixed_clock
              a "/Reset" "log.txt" eq_refl eq_refl eq_refl)
    as (Htyped & Hclicked & Hshown & Hshown' & _).
  split; [exact Htyped|]. split; [exact Hclicked|].
  split.
  - apply (Hshown "Hi."). reflexivity.
  - apply (Hshown' "Hi."). reflexivity.
Defined.


(** * Further properties *)

(** ** Loading *)

Section LoadingFacts.

Context {remote : RemoteChat} {filesystem : FileSystem}
        {textfiles : TextFiles}.

Lemma fs_say (line : string) (w : World) : fs (say line w) = fs w.
Proof. reflexivity. Qed.




End LoadingFacts.




(** ** The knowledge store, further *)

Lemma keys_set {V : Type} (k : string) (v : V) (d : PyDict.t V) :
  PyDict.keys (PyDict.set k v d) =
  if PyDict.mem k d then PyDict.keys d else (PyDict.keys d ++ [k])%list.
Proof.
  unfold PyDict.mem, PyDict.keys.
  induction d as [|[k' v'] d IH]; cbn [PyDict.set PyDict.get map fst];
    [reflexivity|].
  destruct (String.eqb k' k) eqn:E; cbn [map fst]; [reflexivity|].
  rewrite IH. now destruct (PyDict.get k d).
Qed.

Lemma mem_keys {V : Type} (k : string) (d : PyDict.t V) :
  PyDict.mem k d = true <-> In k (PyDict.keys d).
Proof.
  unfold PyDict.mem, PyDict.keys.
  induction d as [|[k' v'] d IH]; cbn [PyDict.get map fst In].
  - split; [discriminate | intros []].
  - destruct (String.eqb k' k) eqn:E.
    + apply String.eqb_eq in E. split; auto.
    + apply String.eqb_neq in E. rewrite IH. split; [now right|].
      intros [H|H]; [now elim E | exact H].
Qed.

Lemma set_keeps_keys_ok (k : string) (v : json) (kb : PyDict.t json) :
  lower k = k ->
  NoDup (PyDict.keys kb) /\ Forall (fun k => lower k = k) (PyDict.keys kb) ->
  NoDup (PyDict.keys (PyDict.set k v kb))
  /\ Forall (fun k => lower k = k) (PyDict.keys (PyDict.set k v kb)).
Proof.
  intros Hk [Hnd Hlow]. rewrite keys_set.
  destruct (PyDict.mem k kb) eqn:Hmem; [now split|].
  split.
  - apply NoDup_app; [exact Hnd | repeat constructor; intros [] |].
    intros x Hx [<-|[]]. apply mem_keys in Hx. congruence.
  - apply Forall_app. split; [exact Hlow | now repeat constructor].
Qed.

Lemma add_term_record_keeps_keys_ok (item : json) (kb kb' : PyDict.t json) :
  add_term_record item kb = Returned kb' ->
  NoDup (PyDict.keys kb) /\ Forall (fun k => lower k = k) (PyDict.keys kb) ->
  (NoDup (PyDict.keys kb')
   /\ Forall (fun k => lower k = k) (PyDict.keys kb'))
  /\ length (PyDict.keys kb') <= S (length (PyDict.keys kb)).
Proof.
  unfold add_term_record. intros H Hok.
  destruct (is_term_record item);
    [|injection H as <-; split; [exact Hok | lia]].
  destruct item as [| | | | |fields];
    try (injection H as <-; split; [exact Hok | lia]).
  destruct (PyDict.get "term" fields) as [[| | |term| |]|];
    try discriminate H.
  destruct (PyDict.get "definition" fields) as [definition|];
    [|discriminate H].
  injection H as <-. split.
  - apply set_keeps_keys_ok; [apply lower_idempotent | exact Hok].
  - rewrite keys_set. destruct (PyDict.mem (lower term) kb); [lia|].
    rewrite length_app. cbn [length]. lia.
Qed.

Lemma add_term_records_keep_keys_ok (items : list json)
    (kb kb' : PyDict.t json) :
  add_term_records items kb = Returned kb' ->
  NoDup (PyDict.keys kb) /\ Forall (fun k => lower k = k) (PyDict.keys kb) ->
  (NoDup (PyDict.keys kb')
   /\ Forall (fun k => lower k = k) (PyDict.keys kb'))
  /\ length (PyDict.keys kb') <= length items + length (PyDict.keys kb).
Proof.
  revert kb. induction items as [|item items IH]; intros kb H Hok.
  - injection H as <-. split; [exact Hok | cbn; lia].
  - cbn [add_term_records] in H.
    destruct (add_term_record item kb) as [kb1|e] eqn:H1; [|discriminate H].
    destruct (add_term_record_keeps_keys_ok item kb kb1 H1 Hok) as [Hok1 Hl1].
    destruct (IH kb1 H Hok1) as [Hok' Hl']. split; [exact Hok'|].
    cbn [length]. lia.
Qed.

(** X4. Whatever was loaded, a knowledge base that construction returns
    has no key twice and only lower-cased keys, and not more keys than
    there were records; loaded terms that are not a list give the empty
    knowledge base. *)
Theorem knowledge_base_keys (loaded_terms : json) (kb : PyDict.t json) :
  build_knowledge_base loaded_terms = Returned kb ->
  NoDup (PyDict.keys kb)
  /\ Forall (fun k => lower k = k) (PyDict.keys kb)
  /\ match loaded_terms with
     | JList items => length (PyDict.keys kb) <= length items
     | _ => kb = []
     end.
Proof.
  assert (NoDup (PyDict.keys (@PyDict.empty json))
          /\ Forall (fun k => lower k = k) (PyDict.keys (@PyDict.empty json)))
    as Hempty by (split; constructor).
  unfold build_knowledge_base.
  destruct loaded_terms as [| | | |items|fields]; intros H;
    try (injection H as <-; destruct Hempty; repeat split; assumption).
  destruct (add_term_records_keep_keys_ok items _ kb H Hempty)
    as [[Hnd Hlow] Hlen].
  repeat split; try assumption. cbn in Hlen. lia.
Qed.

Lemma knowledge_base_keys_witness :
  exists kb,
    build_knowledge_base (JList Demo.sample_records) = Returned kb
    /\ NoDup (PyDict.keys kb)
    /\ length (PyDict.keys kb) <= 4.
Proof.
  eexists. split; [reflexivity|].
  destruct (knowledge_base_keys (JList Demo.sample_records) _ eq_refl)
    as (Hnd & _ & Hlen).
  split; [exact Hnd | exact Hlen].
Defined.

Section ListingFacts.

Context {remote : RemoteChat} {filesystem : FileSystem}.



End ListingFacts.

(** ** The query resolver, further *)

(** X7. The key the resolver looks up is always lower-cased: with the
    lower-cased query that the page passes, a key of the knowledge base
    that holds an upper-case letter can never be found. *)
Theorem lookup_key_is_lower_case (q : string) :
  lower (term_to_explain q (lower q)) = term_to_explain q (lower q).
Proof.
  unfold term_to_explain.
  destruct (startswith (lower q) "what is " || startswith (lower q) "explain ");
    [|apply lower_idempotent].
  destruct (1 <? length (split " " 2 q))%nat; apply lower_idempotent.
Qed.

Section ResolverMore.

Context {remote : RemoteChat} {filesystem : FileSystem}
        {rendering : Rendering}.

(** A call whose key is in the knowledge base depends on the query through
    the key only. *)
Lemma hit_depends_on_key_only (q1 l1 q2 l2 : string) (kb : PyDict.t json)
    (log_filename : string) (persona : json) (w : World) (d : json) :
  term_to_explain q1 l1 = term_to_explain q2 l2 ->
  PyDict.get (term_to_explain q1 l1) kb = Some d ->
  process_ai_query q1 l1 kb log_filename persona w =
  process_ai_query q2 l2 kb log_filename persona w.
Proof.
  intros Hkey Hget. unfold process_ai_query, prepare_prompt.
  rewrite <- Hkey. now rewrite Hget.
Qed.

(** X8. ["Explain X"], in any casing of the phrase, where [X] lower-cased
    is a key of the knowledge base that does not itself start with one of
    the two phrases: the call does what the call on the bare query [X]
    does, with the same messages and the same effects. *)
Theorem explain_phrase_is_transparent (phrase x : string)
    (kb : PyDict.t json) (log_filename : string) (persona : json)
    (w : World) (d : json) :
  lower phrase = "explain " ->
  startswith (lower x) "what is " = false ->
  startswith (lower x) "explain " = false ->
  PyDict.get (lower x) kb = Some d ->
  process_ai_query (phrase ++ x) (lower (phrase ++ x)) kb log_filename
    persona w =
  process_ai_query x (lower x) kb log_filename persona w.
Proof.
  intros Hphrase H1 H2 Hget.
  apply (hit_depends_on_key_only _ _ _ _ _ _ _ _ d).
  - now rewrite (explain_query_key phrase x Hphrase), (plain_query_key x H1 H2).
  - now rewrite (explain_query_key phrase x Hphrase).
Qed.

(** X9. ["What is X"], in any casing of the phrase, is looked up under
    ["is "] followed by [X] lower-cased; unless that is a key, the call is
    a miss, whatever the knowledge base holds for [X]: nothing is emitted
    before the send and the prompt is the query as typed. *)
Theorem what_is_phrase_keeps_is (phrase x : string) (kb : PyDict.t json)
    (log_filename : string) (persona : json) (w : World) :
  lower phrase = "what is " ->
  term_to_explain (phrase ++ x) (lower (phrase ++ x)) = "is " ++ lower x
  /\ (PyDict.get ("is " ++ lower x) kb = None ->
      prepare_prompt (phrase ++ x) (lower (phrase ++ x)) kb log_filename
        persona ([], w) =
      (Returned (phrase ++ x), ([], w))).
Proof.
  intros Hphrase.
  pose proof (what_is_query_key phrase x Hphrase) as Hkey.
  split; [exact Hkey|].
  intros Hget. apply prepare_prompt_miss. now rewrite Hkey.
Qed.



(** X12. When the access of line 105 fails, what it raises is an
    [IndexError] (no first turn, or no first part), a [KeyError] (a turn
    without ["parts"], a part without ["text"], or an object where a list
    was expected) or a [TypeError] (any other value in the way); on a call
    whose key is in the knowledge base this is the exception the call
    raises. *)
Theorem persona_access_exception (q qlc : string) (kb : PyDict.t json)
    (log_filename : string) (persona : json) (w : World) (d : json) (e : Exn) :
  PyDict.get (term_to_explain q qlc) kb = Some d ->
  elaboration_instruction_of persona = Raised e ->
  fst (process_ai_query q qlc kb log_filename persona w) = Raised e
  /\ (exn_class e = IndexError \/ exn_class e = KeyError
      \/ exn_class e = TypeError)
  /\ (persona = JList [] -> exn_class e = IndexError).
Proof.
  intros Hget He.
  split; [|split].
  - rewrite process_ai_query_unfold.
    destruct (prepare_prompt_hit q qlc kb log_filename persona w d Hget)
      as (w1 & _ & Hp).
    now rewrite Hp, He.
  - revert He. unfold elaboration_instruction_of.
    destruct (subscript_index persona 0) as [turn|e1] eqn:H1.
    + destruct (subscript_key turn "parts") as [ps|e2] eqn:H2.
      * destruct (subscript_index ps 0) as [p|e3] eqn:H3.
        -- intros H4. destruct p as [| | | | |fields]; cbn in H4;
             try (injection H4 as <-; cbn; tauto).
           destruct (PyDict.get "text" fields); [discriminate H4|].
           injection H4 as <-. cbn. tauto.
        -- intros H. injection H as <-.
           destruct ps as [| | |s|l|fields]; cbn in H3;
             try (injection H3 as <-; cbn; tauto).
           ++ destruct s; cbn in H3;
                first [discriminate H3 | injection H3 as <-; cbn; tauto].
           ++ destruct l; cbn in H3;
                first [discriminate H3 | injection H3 as <-; cbn; tauto].
      * intros H. injection H as <-.
        destruct turn as [| | | | |fields]; cbn in H2;
          try (injection H2 as <-; cbn; tauto).
        destruct (PyDict.get "parts" fields); [discriminate H2|].
        injection H2 as <-. cbn. tauto.
    + intros H. injection H as <-.
      destruct persona as [| | |s|l|fields]; cbn in H1;
        try (injection H1 as <-; cbn; tauto).
      * destruct s; cbn in H1;
                first [discriminate H1 | injection H1 as <-; cbn; tauto].
      * destruct l; cbn in H1;
                first [discriminate H1 | injection H1 as <-; cbn; tauto].
  - intros ->. cbn in He. injection He as <-. reflexivity.
Qed.

End ResolverMore.

Lemma explain_phrase_is_transparent_witness :
  let session := Demo.answering (Demo.plain_reply "ok") in
  Demo.run_query "EXPLAIN Pip" Demo.pip_kb Demo.default_persona session =
  Demo.run_query "Pip" Demo.pip_kb Demo.default_persona session.
Proof.
  intros session.
  apply (@explain_phrase_is_transparent Demo.scripted_remote
           Demo.recording_fs Demo.plain_rendering "EXPLAIN " "Pip"
           Demo.pip_kb "log.txt" Demo.default_persona
           (Demo.world_of session) Demo.pip_definition);
    reflexivity.
Defined.

Lemma what_is_phrase_keeps_is_witness :
  term_to_explain "WHAT IS Pip" (lower "WHAT IS Pip") = "is pip".
Proof.
  apply (proj1 (@what_is_phrase_keeps_is Demo.scripted_remote
                  Demo.recording_fs Demo.plain_rendering "WHAT IS " "Pip"
                  Demo.pip_kb "log.txt" Demo.default_persona
                  (Demo.world_of (Demo.answering (Demo.plain_reply "ok")))
                  eq_refl)).
Defined.



Lemma persona_access_exception_witness :
  let session := Demo.answering (Demo.plain_reply "ok") in
  let no_parts := JList [JDict [("role", JString "user")]] in
  fst (Demo.run_query "pip" Demo.pip_kb no_parts session) =
  Raised {| exn_class := KeyError; exn_text := "'parts'" |}.
Proof.
  intros session no_parts.
  apply (proj1 (@persona_access_exception Demo.scripted_remote
                  Demo.recording_fs Demo.plain_rendering "pip" "pip"
                  Demo.pip_kb "log.txt" no_parts (Demo.world_of session)
                  Demo.pip_definition _ eq_refl eq_refl)).
Defined.

(** ** The page, further *)

Lemma bind_returned_inv {S A B : Type} (c : M S A) (k : A -> M S B)
    (s s' : S) (b : B) :
  bind c k s = (Returned b, s') ->
  exists a s1, c s = (Returned a, s1) /\ k a s1 = (Returned b, s').
Proof.
  unfold bind. destruct (c s) as [[a|e] s1]; [eauto | discriminate].
Qed.

(** The role chosen in lines 289 to 295 is the same in every case. *)
Lemma display_role_assistant (msg_info : UIMessage) :
  display_role msg_info = "assistant".
Proof.
  unfold display_role.
  destruct (contains "local" (lower (speaker_type msg_info)));
    [reflexivity|].
  destruct (contains "llm" (lower (speaker_type msg_info)));
    [reflexivity|].
  destruct (contains "system_info" (lower (speaker_type msg_info)));
    [reflexivity|].
  now destruct (contains "system_error" (lower (speaker_type msg_info))).
Qed.

Section PageFacts.

Context {remote : RemoteChat} {filesystem : FileSystem}
        {random : RandomSource} {rendering : Rendering} {clock : Clock}.

(** The entries the loop over the resolver's messages adds. *)
Lemma display_all_run (msgs : list UIMessage) (a : App) :
  display_all msgs a =
  (Returned tt,
   set_display_messages
     (display_messages a
      ++ map (fun m => {| msg_role := "assistant"; content := text m |}) msgs)
     a).
Proof.
  revert a. induction msgs as [|m msgs IH]; intros a.
  - cbn [display_all map]. unfold ret. rewrite app_nil_r.
    now destruct a.
  - cbn [display_all map]. unfold bind at 1, display, modify.
    rewrite IH, display_role_assistant.
    cbn [display_messages set_display_messages].
    now rewrite <- app_assoc.
Qed.

Lemma resolve_run (original lowered f : string) (a : App) :
  log_file a = Some f ->
  resolve original lowered a =
  (fst (process_ai_query original lowered (knowledge_base a) f
          (initial_chat_history_template a) (world a)),
   set_world
     (snd (process_ai_query original lowered (knowledge_base a) f
             (initial_chat_history_template a) (world a))) a).
Proof.
  intros Hf. unfold resolve, bind, get_state, session_log_file. rewrite Hf.
  apply on_world_run.
Qed.

(** X13. An ordinary query, when the resolver returns: the transcript
    grows by the query as typed, under the role [user], and then by one
    entry per message of the resolver, in their order, each under the role
    [assistant] whatever its speaker type; a rerun is requested. *)
Theorem query_extends_transcript (q f : string) (a : App)
    (msgs : list UIMessage) (w' : World) :
  q <> EmptyString -> log_file a = Some f ->
  dispatch_branch (lower q) = QueryBranch ->
  process_ai_query q (lower q) (knowledge_base a) f
    (initial_chat_history_template a)
    (snd (log_to_file f q (Some "User") (world a))) = (Returned msgs, w') ->
  exists a',
    handle_user_query q a = (Returned tt, a')
    /\ display_messages a' =
       (display_messages a
        ++ {| msg_role := "user"; content := q |}
           :: map (fun m => {| msg_role := "assistant"; content := text m |})
                msgs)%list
    /\ world a' = w'
    /\ rerun_requested a' = true.
Proof.
  intros Hne Hf Hbranch Hrun.
  rewrite (handle_user_query_unfold q f a Hne Hf), Hbranch.
  unfold handle_branch.
  unfold bind at 1. unfold bind at 1.
  rewrite (resolve_run q (lower q) f) by exact Hf.
  cbn [world set_world knowledge_base initial_chat_history_template
       set_display_messages].
  rewrite Hrun. cbn [fst snd].
  unfold bind at 1. rewrite display_all_run.
  unfold ret, st_rerun, modify.
  eexists. split; [reflexivity|].
  cbn [display_messages set_display_messages set_world set_rerun_requested
       world rerun_requested].
  rewrite <- app_assoc. repeat split.
Qed.

(** X14. [quit] and [exit], in any casing: the goodbye is shown after the
    echo of the input, the page tells that the session has ended, no rerun
    is requested, and the chat session, the knowledge base and the random
    source are left alone. *)
Theorem quit_ends_the_session (q f : string) (a : App) :
  lower q = "quit" \/ lower q = "exit" -> log_file a = Some f ->
  exists a',
    handle_user_query q a = (Returned tt, a')
    /\ display_messages a' =
       (display_messages a
        ++ [ {| msg_role := "user"; content := q |};
             {| msg_role := "assistant";
                content := "Goodbye! Hope this was helpful." |} ])%list
    /\ page a' =
       (page a
        ++ [Info "Chat session ended. Refresh the page to start a new session."])%list
    /\ rerun_requested a' = rerun_requested a
    /\ chat (world a') = chat (world a)
    /\ random_draws (world a') = random_draws (world a)
    /\ knowledge_base a' = knowledge_base a.
Proof.
  intros Hq Hf.
  assert (q <> EmptyString) as Hne
    by (intros ->; destruct Hq as [Hq|Hq]; discriminate Hq).
  rewrite (handle_user_query_unfold q f a Hne Hf).
  assert (dispatch_branch (lower q) = QuitBranch) as ->
    by (destruct Hq as [-> | ->]; reflexivity).
  unfold handle_branch.
  unfold bind at 1.
  unfold bind at 1, display at 1, modify at 1.
  do 4 (unfold bind at 1; rewrite (log_run _ _ _ f) by exact Hf).
  unfold bind at 1, notify, modify. unfold ret.
  eexists. split; [reflexivity|].
  cbn [display_messages set_display_messages set_world set_page page world
       rerun_requested knowledge_base].
  rewrite !log_to_file_keeps_chat, !log_to_file_keeps_draws, <- app_assoc.
  repeat split.
Qed.

End PageFacts.

Section PageFlow.

Context {remote : RemoteChat} {filesystem : FileSystem}
        {random : RandomSource} {rendering : Rendering} {clock : Clock}.

(** Takes a computation that returned apart, statement by statement. *)
Ltac unbind H :=
  repeat
    (let x := fresh "x" in
     let s := fresh "s" in
     let H1 := fresh "Hstep" in
     apply bind_returned_inv in H; destruct H as (x & s & H1 & H)).

(** The value a branch leaves in [should_rerun_after_processing]. *)
Lemma handle_branch_flag (branch : Branch) (q lc : string) (a a' : App)
    (flag : bool) :
  handle_branch branch q lc a = (Returned flag, a') ->
  flag = match branch with QuitBranch => false | _ => true end.
Proof.
  destruct branch; unfold handle_branch; intros H; unbind H;
    unfold ret in H; now injection H as <- _.
Qed.

(** X15. Every typed input that is handled to the end requests a rerun of
    the page, except [quit] and [exit]. *)
Theorem rerun_unless_quit (q : string) (a a' : App) :
  q <> EmptyString ->
  handle_user_query q a = (Returned tt, a') ->
  dispatch_branch (lower q) <> QuitBranch ->
  rerun_requested a' = true.
Proof.
  intros Hne H Hbranch. unfold handle_user_query in H.
  destruct q as [|c q]; [now elim Hne|].
  apply bind_returned_inv in H. destruct H as (x1 & s1 & _ & H).
  apply bind_returned_inv in H. destruct H as (x2 & s2 & _ & H).
  apply bind_returned_inv in H. destruct H as (flag & s3 & Hflag & H).
  apply handle_branch_flag in Hflag.
  destruct (dispatch_branch (lower (String c q))); try (now elim Hbranch);
    subst flag; unfold st_rerun, modify in H; now injection H as <-.
Qed.

(** X16. On a session that is not initialised the buttons of the sidebar
    change neither the transcript nor the world, and request no rerun:
    the reset, help and list buttons show a warning, the random-term
    button shows nothing at all. *)
Theorem sidebar_needs_initialisation (a : App) :
  agent_initialized a = false ->
  reset_button_sidebar a =
    (Returned tt,
     set_page (page a ++ [Warning "Agent not initialized yet. Cannot reset."])
       a)
  /\ @help_button_sidebar remote filesystem a =
     (Returned tt,
      set_page (page a ++ [Warning "Agent not initialized yet."]) a)
  /\ @my_terms_button_sidebar remote filesystem a =
     (Returned tt,
      set_page (page a ++ [Warning "Agent not initialized yet."]) a)
  /\ random_term_button_sidebar a = (Returned tt, a).
Proof.
  intros H.
  unfold reset_button_sidebar, help_button_sidebar, my_terms_button_sidebar,
    random_term_button_sidebar, bind, get_state.
  rewrite H. repeat split.
Qed.

End PageFlow.

(** ** Random terms *)

Lemma get_of_key {V : Type} (k : string) (d : PyDict.t V) :
  In k (PyDict.keys d) -> exists v, PyDict.get k d = Some v.
Proof.
  intros H. apply mem_keys in H. unfold PyDict.mem in H.
  destruct (PyDict.get k d) as [v|]; [eauto | discriminate H].
Qed.

Section RandomTermFacts.

Context {remote : RemoteChat} {filesystem : FileSystem}
        {random : RandomSource} {rendering : Rendering} {clock : Clock}.

(** [random.choice] on a list that is not empty: the element at the drawn
    index, which is one of its elements, and one draw made. *)
Lemma random_choice_run (seq : list string) (w : World) :
  seq <> [] ->
  let key :=
    nth (randbelow (random_draws w) (length seq) mod length seq) seq
      EmptyString in
  In key seq
  /\ random_choice seq w =
     (Returned key, set_random_draws (S (random_draws w)) w).
Proof.
  intros Hne key. subst key. destruct seq as [|k0 rest]; [now elim Hne|].
  split; [|reflexivity].
  apply nth_In. apply Nat.mod_upper_bound. discriminate.
Qed.

(** A call whose key is in the knowledge base, with a persona of the
    expected shape, returns the local definition first. *)
Lemma hit_returns_local (q qlc : string) (kb : PyDict.t json)
    (log_filename : string) (persona : json) (w : World) (d : json) :
  PyDict.get (term_to_explain q qlc) kb = Some d ->
  persona_shape_ok persona = true ->
  exists tail w',
    process_ai_query q qlc kb log_filename persona w =
    (Returned
       ({| speaker_type := "local";
           text := local_def_message_of (title (term_to_explain q qlc)) d |}
        :: tail), w')
    /\ tail <> [].
Proof.
  intros Hget Hshape.
  apply elaboration_instruction_shape in Hshape.
  destruct Hshape as [instruction Hi].
  rewrite process_ai_query_unfold.
  destruct (prepare_prompt_hit q qlc kb log_filename persona w d Hget)
    as (w1 & _ & Hp).
  rewrite Hp, Hi.
  match goal with
  | |- context [send_and_report ?p ?f (?l, ?w0)] =>
      destruct (send_and_report_returns p f l w0)
        as (tail & w2 & Hs & Htail)
  end.
  rewrite Hs. cbn [fst snd app].
  exists tail, w2. split; [reflexivity|].
  destruct Htail as [[r ->]|[e ->]]; discriminate.
Qed.

(** The key under which the page's random term is looked up. *)
Lemma random_term_key_lookup (key : string) :
  startswith key "what is " = false -> startswith key "explain " = false ->
  term_to_explain (title key) key = key.
Proof.
  intros H1 H2. unfold term_to_explain. now rewrite H1, H2.
Qed.

(** X17. The typed command [/random_term], in any casing, on a knowledge
    base that is not empty and none of whose keys starts with one of the
    two phrases, with a persona of the expected shape.  The term is the key
    at the drawn index; the resolver is called on its title-cased form and
    itself, in the world left by the logging and the draw, and returns the
    local definition of that key followed by further messages; the
    transcript grows by the echo of the input, the announcement of the
    term, and one entry for each message the resolver returned, in their
    order; the world is the one the resolver left, after the closing log
    line; a rerun is requested. *)
Theorem typed_random_term_shows_definition (q f : string) (a : App) :
  lower q = "/random_term" -> log_file a = Some f ->
  knowledge_base a <> [] ->
  persona_shape_ok (initial_chat_history_template a) = true ->
  Forall (fun k => startswith k "what is " = false
                   /\ startswith k "explain " = false)
         (PyDict.keys (knowledge_base a)) ->
  let keys := PyDict.keys (knowledge_base a) in
  let w1 := snd (log_to_file f q (Some "User") (world a)) in
  let w2 := snd (log_to_file f "--- User typed /random_term ---" None w1) in
  let key :=
    nth (randbelow (random_draws w2) (length keys) mod length keys) keys
      EmptyString in
  let selection_msg := "Okay, let's talk about: '" ++ title key ++ "'" in
  let w3 :=
    snd (log_to_file f selection_msg (Some "AI Agent")
           (set_random_draws (S (random_draws w2)) w2)) in
  let resolved :=
    process_ai_query (title key) key (knowledge_base a) f
      (initial_chat_history_template a) w3 in
  exists d tail a',
    In key keys
    /\ PyDict.get key (knowledge_base a) = Some d
    /\ random_draws w2 = random_draws (world a)
    /\ fst resolved =
       Returned ({| speaker_type := "local";
                    text := local_def_message_of (title key) d |} :: tail)
    /\ tail <> []
    /\ handle_user_query q a = (Returned tt, a')
    /\ display_messages a' =
       (display_messages a
        ++ [ {| msg_role := "user"; content := q |};
             {| msg_role := "assistant"; content := selection_msg |};
             {| msg_role := "assistant";
                content := local_def_message_of (title key) d |} ]
        ++ map (fun m => {| msg_role := "assistant"; content := text m |})
             tail)%list
    /\ world a' = snd (log_to_file f "---" None (snd resolved))
    /\ rerun_requested a' = true.
Proof.
  intros Hq Hf Hkb Hshape Hkeys keys w1 w2 key selection_msg w3 resolved.
  assert (q <> EmptyString) as Hne by (intros ->; discriminate Hq).
  assert (keys <> []) as Hkeys_ne.
  { subst keys. destruct (knowledge_base a); [now elim Hkb | discriminate]. }
  destruct (random_choice_run keys w2 Hkeys_ne) as [Hin Hrc].
  fold key in Hin, Hrc.
  destruct (get_of_key key (knowledge_base a) Hin) as [d Hget].
  pose proof (proj1 (Forall_forall _ _) Hkeys key Hin) as [Hp1 Hp2].
  destruct (hit_returns_local (title key) key (knowledge_base a) f
              (initial_chat_history_template a) w3 d)
    as (tail & w' & Hrun & Ht);
    [now rewrite (random_term_key_lookup key Hp1 Hp2) | exact Hshape |].
  rewrite (random_term_key_lookup key Hp1 Hp2) in Hrun.
  fold resolved in Hrun.
  exists d, tail. eexists.
  split; [exact Hin|]. split; [exact Hget|].
  split; [subst w2 w1; now rewrite !log_to_file_keeps_draws|].
  split; [now rewrite Hrun|]. split; [exact Ht|].
  rewrite (handle_user_query_unfold q f a Hne Hf).
  rewrite Hq. cbn [dispatch_branch String.eqb Ascii.eqb Bool.eqb orb].
  unfold handle_branch.
  unfold bind at 1.
  unfold bind at 1. rewrite (log_run _ _ _ f) by exact Hf.
  unfold bind at 1, get_state.
  cbn [knowledge_base set_world set_display_messages world].
  destruct (PyDict.truthy (knowledge_base a)) eqn:Htruthy;
    [|destruct (knowledge_base a); [now elim Hkb | discriminate Htruthy]].
  unfold bind at 1. unfold bind at 1. rewrite on_world_run.
  cbn [world set_world].
  fold keys. fold w1. fold w2. rewrite Hrc. cbn [fst snd].
  unfold bind at 1, display at 1, modify at 1.
  unfold bind at 1. rewrite (log_run _ _ _ f) by exact Hf.
  unfold bind at 1. rewrite (resolve_run _ _ f) by exact Hf.
  cbn [knowledge_base initial_chat_history_template set_world
       set_display_messages world].
  fold selection_msg. fold w3. fold resolved.
  rewrite Hrun. cbn [fst snd].
  rewrite display_all_run.
  unfold bind at 1. rewrite (log_run _ _ _ f) by exact Hf.
  unfold ret, st_rerun, modify.
  split; [reflexivity|].
  cbn [display_messages set_display_messages set_world set_rerun_requested
       rerun_requested map world].
  split; [|split; reflexivity].
  rewrite <- !app_assoc. reflexivity.
Qed.

End RandomTermFacts.

(** ** The sidebar on a knowledge base that is not empty, and the loading
       of the session data *)

Section SessionFacts.

Context {remote : RemoteChat} {filesystem : FileSystem}
        {random : RandomSource} {rendering : Rendering} {clock : Clock}
        {textfiles : TextFiles}.

Lemma on_world_keeps_display {A : Type} (c : M World A) :
  keeps display_messages (on_world c).
Proof. intros a. now rewrite on_world_run. Qed.

Lemma log_keeps_display (m : string) (sp : option string) :
  keeps display_messages (log m sp).
Proof.
  unfold log. apply keeps_bind.
  - intros a. unfold session_log_file. now destruct (log_file a).
  - intros f. apply on_world_keeps_display.
Qed.

(** X18. The sidebar button "Explain Random Term" on an initialised
    session with a knowledge base that is not empty: whenever the handler
    runs to its end, the last entry of the transcript is the message that
    the knowledge base is empty, and a rerun is requested. *)
Theorem sidebar_random_term_ends_with_notice (a a' : App) :
  agent_initialized a = true -> knowledge_base a <> [] ->
  random_term_button_sidebar a = (Returned tt, a') ->
  rerun_requested a' = true
  /\ exists before,
       display_messages a' =
       (before
        ++ [{| msg_role := "assistant";
               content :=
                 "My local knowledge base is empty, so I can't pick a random term."
             |}])%list.
Proof.
  intros Hinit Hkb H. unfold random_term_button_sidebar in H.
  unfold bind at 1, get_state in H. rewrite Hinit in H.
  destruct (PyDict.truthy (knowledge_base a)) eqn:Htruthy;
    [|destruct (knowledge_base a); [now elim Hkb | discriminate Htruthy]].
  apply bind_returned_inv in H. destruct H as (x1 & s1 & _ & H).
  apply bind_returned_inv in H. destruct H as (key & s2 & _ & H).
  apply bind_returned_inv in H. destruct H as (x3 & s3 & _ & H).
  apply bind_returned_inv in H. destruct H as (x4 & s4 & _ & H).
  apply bind_returned_inv in H. destruct H as (msgs & s5 & _ & H).
  apply bind_returned_inv in H. destruct H as (x6 & s6 & _ & H).
  apply bind_returned_inv in H. destruct H as (x7 & s7 & Hnotice & H).
  apply bind_returned_inv in H. destruct H as (x8 & s8 & Hlog & H).
  apply bind_returned_inv in Hnotice.
  destruct Hnotice as (x9 & s9 & Hshow & Hlog').
  unfold display, modify in Hshow. injection Hshow as _ <-.
  pose proof (log_keeps_display
                "My local knowledge base is empty, so I can't pick a random term."
                (Some "AI Agent")
                (set_display_messages
                   (display_messages s6
                    ++ [{| msg_role := "assistant";
                           content :=
                             "My local knowledge base is empty, so I can't pick a random term."
                         |}]) s6)) as K1.
  rewrite Hlog' in K1. cbn [snd display_messages set_display_messages] in K1.
  pose proof (log_keeps_display "---" None s7) as K2.
  rewrite Hlog in K2. cbn [snd] in K2.
  unfold st_rerun, modify in H. injection H as <-.
  cbn [rerun_requested display_messages set_rerun_requested].
  split; [reflexivity|].
  exists (display_messages s6). now rewrite K2, K1.
Qed.

End SessionFacts.

Section SessionDataFacts.

Context {remote : RemoteChat} {filesystem : FileSystem}
        {textfiles : TextFiles}.

(** A file type other than JSON loads as a string. *)
Lemma load_is_text (filename file_type : string) (w : World) :
  lower file_type <> "json" ->
  exists s,
    fst (load_data_from_file filename file_type w) = Returned (JString s).
Proof.
  intros Hne. apply String.eqb_neq in Hne.
  unfold load_data_from_file, load_attempt, default_for.
  rewrite fs_say, Hne.
  destruct (fs_open_read filename (fs w)) as [[| |detail] f1];
    [|eexists; reflexivity|eexists; reflexivity].
  destruct (String.eqb (lower file_type) "txt");
    unfold read_text; cbn [fs set_fs say set_console];
    destruct (fs_read_all filename f1) as [[content|detail] f2];
    eexists; reflexivity.
Qed.

(** A file that does not open loads as the default of its type. *)
Lemma load_not_opened (filename file_type : string) (w : World) :
  fst (fs_open_read filename (fs w)) <> Opened ->
  fst (load_data_from_file filename file_type w) =
  Returned (default_for file_type).
Proof.
  intros Hopen. unfold load_data_from_file, load_attempt. rewrite fs_say.
  destruct (fs_open_read filename (fs w)) as [[| |detail] f1];
    [now elim Hopen | reflexivity | reflexivity].
Qed.

Lemma on_world_returned {A : Type} (c : M World A) (a a' : App) (r : A) :
  on_world c a = (Returned r, a') ->
  fst (c (world a)) = Returned r /\ a' = set_world (snd (c (world a))) a.
Proof.
  rewrite on_world_run. intros H. injection H as H1 H2. now split.
Qed.

(** X20. When the loading of the session data runs to its end, the
    persona in the session state is a true value and the help text is not
    empty, because what did not load or loaded empty has been replaced by
    the fallback; the chat session is a fresh one started from that
    persona; the keys of the knowledge base are distinct.  When the
    persona file does not open, the persona is the fallback and the page
    shows the warning about it. *)
Theorem session_data_fallbacks (a a' : App) :
  load_session_data a = (Returned tt, a') ->
  json_truthy (initial_chat_history_template a') = true
  /\ help_text_content a' <> EmptyString
  /\ chat (world a') = start_chat (initial_chat_history_template a')
  /\ NoDup (PyDict.keys (knowledge_base a'))
  /\ display_messages a' = display_messages a
  /\ (fst (fs_open_read "persona_config.json" (fs (world a))) <> Opened ->
      initial_chat_history_template a' = fallback_persona
      /\ In (Warning "Persona file 'persona_config.json' not loaded. Using minimal default.")
            (page a')).
Proof.
  intros H. unfold load_session_data in H. cbv zeta in H.
  apply bind_returned_inv in H. destruct H as (template & s1 & H1 & H).
  apply bind_returned_inv in H. destruct H as (x2 & s2 & H2 & H).
  apply bind_returned_inv in H. destruct H as (help & s3 & H3 & H).
  apply bind_returned_inv in H. destruct H as (x4 & s4 & H4 & H).
  apply bind_returned_inv in H. destruct H as (terms & s5 & H5 & H).
  apply bind_returned_inv in H. destruct H as (kb & s6 & H6 & H).
  apply bind_returned_inv in H. destruct H as (x7 & s7 & H7 & H).
  apply on_world_returned in H1. destruct H1 as [Htemplate ->].
  apply on_world_returned in H3. destruct H3 as [Hhelp ->].
  apply on_world_returned in H5. destruct H5 as [_ ->].
  unfold lift_outcome in H6. injection H6 as Hbuild <-.
  unfold modify in H7. injection H7 as _ <-.
  unfold restart_chat, modify in H. injection H as <-.
  destruct (load_is_text "persona_help.txt" "txt" (world s2)) as [s Hs];
    [discriminate|].
  rewrite Hs in Hhelp. injection Hhelp as <-.
  assert (NoDup (PyDict.keys kb)) as Hnd.
  { unfold build_knowledge_base in Hbuild.
    destruct terms as [| | | |items|fields];
      try (injection Hbuild as <-; constructor).
    apply (add_term_records_keep_keys_ok items PyDict.empty kb Hbuild).
    split; constructor. }
  assert (fst (fs_open_read "persona_config.json" (fs (world a))) <> Opened ->
          json_truthy template = false) as Hfallback.
  { intros Hopen.
    rewrite (load_not_opened "persona_config.json" "json" (world a) Hopen)
      in Htemplate.
    injection Htemplate as <-. reflexivity. }
  destruct (json_truthy template) eqn:Ht;
    destruct (json_truthy (JString s)) eqn:Hh;
    repeat match goal with
      | Hx : bind _ _ _ = (Returned _, _) |- _ =>
          apply bind_returned_inv in Hx;
          destruct Hx as (? & ? & ?Hn & Hx);
          unfold notify, modify in Hn; injection Hn as _ <-
      | Hx : modify _ _ = (Returned _, _) |- _ =>
          unfold modify in Hx; injection Hx as _ <-
      end;
    cbn [initial_chat_history_template help_text_content knowledge_base
         display_messages world page chat
         set_world set_chat set_page set_display_messages
         set_initial_chat_history_template set_help_text_content
         set_knowledge_base loaded_text];
    (split; [first [exact Ht | reflexivity]|]);
    (split; [first [discriminate | destruct s; [discriminate Hh | discriminate]]|]);
    (split; [reflexivity|]);
    (split; [exact Hnd|]);
    (split; [reflexivity|]);
    intros Hopen; specialize (Hfallback Hopen); try discriminate Hfallback;
    (split; [reflexivity|]);
    repeat rewrite in_app_iff; cbn [In]; tauto.
Qed.

End SessionDataFacts.

(** ** The further properties at concrete inputs *)

Lemma pip_query_run_result :
  Samples.pip_query_run =
  (Returned Samples.pip_answer, snd Samples.pip_query_run).
Proof. vm_compute. reflexivity. Qed.

Lemma query_extends_transcript_witness :
  exists a',
    Demo.type_query "Pip" Samples.fresh_app = (Returned tt, a')
    /\ display_messages a' =
       [ {| msg_role := "user"; content := "Pip" |};
         {| msg_role := "assistant";
            content := text (Demo.local_message "Pip" Demo.pip_definition) |};
         {| msg_role := "assistant"; content := "ok" |} ].
Proof.
  assert ("Pip" <> EmptyString) as Hne by discriminate.
  destruct (@query_extends_transcript Demo.scripted_remote Demo.recording_fs
              Demo.first_choice Demo.plain_rendering Demo.fixed_clock
              "Pip" "log.txt" Samples.fresh_app Samples.pip_answer
              (snd Samples.pip_query_run) Hne eq_refl eq_refl
              pip_query_run_result)
    as (a' & Hrun & Hshown & _).
  exists a'. split; [exact Hrun | exact Hshown].
Defined.

Lemma quit_ends_the_session_witness :
  exists a',
    Demo.type_query "EXIT" Samples.busy_app = (Returned tt, a')
    /\ rerun_requested a' = false
    /\ history (chat (world a')) = Demo.turns Demo.busy_session.
Proof.
  destruct (@quit_ends_the_session Demo.scripted_remote Demo.recording_fs
              Demo.first_choice Demo.plain_rendering Demo.fixed_clock
              "EXIT" "log.txt" Samples.busy_app (or_intror eq_refl) eq_refl)
    as (a' & Hrun & _ & _ & Hrerun & Hchat & _).
  exists a'. split; [exact Hrun|]. split; [exact Hrerun|].
  rewrite Hchat. reflexivity.
Defined.

Lemma my_terms_run_result :
  Demo.type_query "/my_terms" Samples.fresh_app =
  (Returned tt, snd (Demo.type_query "/my_terms" Samples.fresh_app)).
Proof. vm_compute. reflexivity. Qed.

Lemma rerun_unless_quit_witness :
  rerun_requested (snd (Demo.type_query "/my_terms" Samples.fresh_app)) = true.
Proof.
  apply (@rerun_unless_quit Demo.scripted_remote Demo.recording_fs
           Demo.first_choice Demo.plain_rendering Demo.fixed_clock
           "/my_terms" Samples.fresh_app).
  - discriminate.
  - exact my_terms_run_result.
  - discriminate.
Defined.

Lemma sidebar_needs_initialisation_witness :
  Demo.click_random_term Samples.cold_app = (Returned tt, Samples.cold_app)
  /\ Demo.click_reset Samples.cold_app =
     (Returned tt,
      set_page [Warning "Agent not initialized yet. Cannot reset."]
        Samples.cold_app).
Proof.
  destruct (@sidebar_needs_initialisation Demo.scripted_remote
              Demo.recording_fs Demo.first_choice Demo.plain_rendering
              Samples.cold_app eq_refl)
    as (Hreset & _ & _ & Hrandom).
  split; [exact Hrandom | exact Hreset].
Defined.

Lemma pip_keys_have_no_phrase :
  Forall (fun k => startswith k "what is " = false
                   /\ startswith k "explain " = false)
         (PyDict.keys (knowledge_base Samples.fresh_app)).
Proof. repeat constructor. Qed.

Lemma typed_random_term_shows_definition_witness :
  exists a',
    Demo.type_query "/Random_Term" Samples.fresh_app = (Returned tt, a')
    /\ display_messages a' =
       [ {| msg_role := "user"; content := "/Random_Term" |};
         {| msg_role := "assistant";
            content := "Okay, let's talk about: 'Pip'" |};
         {| msg_role := "assistant";
            content := text (Demo.local_message "Pip" Demo.pip_definition) |};
         {| msg_role := "assistant"; content := "ok" |} ].
Proof.
  assert (knowledge_base Samples.fresh_app <> []) as Hkb by discriminate.
  destruct (@typed_random_term_shows_definition Demo.scripted_remote
              Demo.recording_fs Demo.first_choice Demo.plain_rendering
              Demo.fixed_clock "/Random_Term" "log.txt" Samples.fresh_app
              eq_refl eq_refl Hkb eq_refl pip_keys_have_no_phrase)
    as (d & tail & a' & _ & Hget & _ & Hres & _ & Hrun & Hshown & _).
  exists a'. split; [exact Hrun|].
  vm_compute in Hget. injection Hget as <-.
  vm_compute in Hres. injection Hres as <-.
  exact Hshown.
Defined.

Lemma sidebar_random_term_run_result :
  @random_term_button_sidebar Demo.scripted_remote Demo.recording_fs
    Demo.first_choice Demo.plain_rendering Samples.fresh_app =
  (Returned tt, snd (Demo.click_random_term Samples.fresh_app)).
Proof. vm_compute. reflexivity. Qed.

Lemma sidebar_random_term_ends_with_notice_witness :
  exists before,
    display_messages (snd (Demo.click_random_term Samples.fresh_app)) =
    (before
     ++ [{| msg_role := "assistant";
            content :=
              "My local knowledge base is empty, so I can't pick a random term."
          |}])%list.
Proof.
  assert (knowledge_base Samples.fresh_app <> []) as Hkb by discriminate.
  apply (proj2 (@sidebar_random_term_ends_with_notice Demo.scripted_remote
                  Demo.recording_fs Demo.first_choice Demo.plain_rendering
                  Samples.fresh_app
                  (snd (Demo.click_random_term Samples.fresh_app))
                  eq_refl Hkb sidebar_random_term_run_result)).
Defined.

Lemma load_session_run_result :
  @load_session_data Demo.scripted_remote Demo.recording_fs
    Samples.memory_files Samples.fresh_app =
  (Returned tt, snd (Samples.load_session Samples.fresh_app)).
Proof. vm_compute. reflexivity. Qed.

Lemma session_data_fallbacks_witness :
  let a' := snd (Samples.load_session Samples.fresh_app) in
  initial_chat_history_template a' = fallback_persona
  /\ help_text_content a' <> EmptyString
  /\ NoDup (PyDict.keys (knowledge_base a')).
Proof.
  intros a'.
  destruct (@session_data_fallbacks Demo.scripted_remote Demo.recording_fs
              Samples.memory_files Samples.fresh_app a'
              load_session_run_result)
    as (_ & Hhelp & _ & Hkeys & _ & Hfallback).
  split; [|split; [exact Hhelp | exact Hkeys]].
  assert (fst (@fs_open_read Demo.recording_fs Samples.memory_files
                 "persona_config.json" (fs (world Samples.fresh_app)))
          <> Opened) as Hopen by discriminate.
  exact (proj1 (Hfallback Hopen)).
Defined.
